(** * Decidr: a shallow embedding of [Decidr.py] and its session properties

    [Decidr.py] is a Streamlit script.  Streamlit re-runs [main] from the top
    on every user action; what survives between two runs is
    [st.session_state].  One run is modelled as a computation in a small
    state-and-exception monad over the session state and the list of things
    the run rendered or sent; the widgets' return values, the secrets and
    the answer of the remote API are the run's environment. *)

From stdpp Require Import gmap strings list.
From Stdlib Require Import ZArith QArith.

#[local] Set Warnings "-register-all".
#[local] Open Scope string_scope.
#[local] Open Scope Z_scope.
#[local] Open Scope list_scope.

(** ** Python values and exceptions *)

Module Py.

(** What [response.json()] can return: the Python image of a JSON text.
    Python's [None] is [JNull]; a [dict] with [str] keys is a finite map. *)
Inductive json : Type :=
| JNull
| JBool (b : bool)
| JInt (n : Z)
| JFloat (q : Q)
| JStr (s : string)
| JArr (l : list json)
| JObj (o : gmap string json).

(** The exception classes the script can meet.  [RequestException] stands
    for [requests.exceptions.RequestException] and those of its subclasses
    that are not listed apart ([ConnectionError], [Timeout], ...).
    [RequestsJSONDecodeError] is [requests.exceptions.JSONDecodeError],
    which derives from both [RequestException] and [json.JSONDecodeError];
    [JSONDecodeError] is [json.JSONDecodeError] itself.
    [StreamlitSecretNotFoundError] is what [st.secrets] raises when there is
    no secrets file at all (a [FileNotFoundError], no [KeyError]). *)
Inductive exc : Type :=
| KeyError (key : string)
| IndexError
| TypeError
| AttributeError (attr : string)
| RequestException (msg : string)
| HTTPError (msg : string)
| RequestsJSONDecodeError (msg : string)
| JSONDecodeError (msg : string)
| StopException
| RerunException
| StreamlitSecretNotFoundError (msg : string)
| OtherException (msg : string).

Definition isinstance_KeyError (e : exc) : bool :=
  match e with KeyError _ => true | _ => false end.

Definition isinstance_RequestException (e : exc) : bool :=
  match e with
  | RequestException _ | HTTPError _ | RequestsJSONDecodeError _ => true
  | _ => false
  end.

Definition isinstance_JSONDecodeError (e : exc) : bool :=
  match e with
  | RequestsJSONDecodeError _ | JSONDecodeError _ => true
  | _ => false
  end.

(** [str(e)] *)
Definition str (e : exc) : string :=
  match e with
  | KeyError k => "'" +:+ k +:+ "'"
  | IndexError => "list index out of range"
  | TypeError => "TypeError"
  | AttributeError a => a
  | RequestException m | HTTPError m | RequestsJSONDecodeError m
  | JSONDecodeError m | StreamlitSecretNotFoundError m
  | OtherException m => m
  | StopException | RerunException => EmptyString
  end.

(** An evaluation either returns a value or raises. *)
Inductive result (A : Type) : Type :=
| Returned (a : A)
| Raised (e : exc).
#[global] Arguments Returned {A} a.
#[global] Arguments Raised {A} e.

#[global] Instance result_ret : MRet result := fun A a => Returned a.

#[global] Instance result_bind : MBind result := fun A B f r =>
  match r with
  | Returned a => f a
  | Raised e => Raised e
  end.

(** Truth value testing, as [if v:] does it. *)
Definition truthy (v : json) : bool :=
  match v with
  | JNull => false
  | JBool b => b
  | JInt n => negb (n =? 0)
  | JFloat q => negb (Qeq_bool q (Qmake 0 1))
  | JStr s => match s with EmptyString => false | String _ _ => true end
  | JArr l => match l with [] => false | _ :: _ => true end
  | JObj o => negb (Nat.eqb (size o) 0)
  end.

(** [x in s] on two [str]: substring test. *)
Fixpoint is_substring (x s : string) : bool :=
  String.prefix x s ||
  match s with
  | EmptyString => false
  | String _ s' => is_substring x s'
  end.

(** [x in v] for a [str] [x]: key membership on a dict, element
    membership on a list, substring on a str; the other values are not
    containers. *)
Definition contains (v : json) (x : string) : result bool :=
  match v with
  | JObj o => Returned (match o !! x with Some _ => true | None => false end)
  | JArr l =>
      Returned (existsb (fun y => match y with
                                  | JStr s => String.eqb x s
                                  | _ => false
                                  end) l)
  | JStr s => Returned (is_substring x s)
  | JNull | JBool _ | JInt _ | JFloat _ => Raised TypeError
  end.

(** Strings are kept as UTF-8 bytes; Python indexes a [str] by code
    point.  A byte [10xxxxxx] continues the code point before it. *)
Definition is_continuation (c : Ascii.ascii) : bool :=
  let n := Z.of_nat (Ascii.nat_of_ascii c) in (128 <=? n) && (n <? 192).

Fixpoint codepoints_aux (s : string) : string * list string :=
  match s with
  | EmptyString => (EmptyString, [])
  | String c s' =>
      let '(pending, cps) := codepoints_aux s' in
      if is_continuation c then (String c pending, cps)
      else (EmptyString, String c pending :: cps)
  end.

Definition codepoints (s : string) : list string :=
  let '(pending, cps) := codepoints_aux s in
  match pending with
  | EmptyString => cps
  | String _ _ => pending :: cps
  end.

(** [v[i]] for an [int] [i >= 0].  The keys of a parsed JSON object are
    [str], so an [int] key is never found. *)
Definition getitem_int (v : json) (i : nat) : result json :=
  match v with
  | JArr l =>
      match l !! i with Some x => Returned x | None => Raised IndexError end
  | JStr s =>
      match codepoints s !! i with
      | Some c => Returned (JStr c)
      | None => Raised IndexError
      end
  | JObj _ => Raised (KeyError "0")
  | JNull | JBool _ | JInt _ | JFloat _ => Raised TypeError
  end.

(** [v[k]] for a [str] [k]: only a dict can be subscripted by a [str]. *)
Definition getitem_str (v : json) (k : string) : result json :=
  match v with
  | JObj o =>
      match o !! k with Some x => Returned x | None => Raised (KeyError k) end
  | JNull | JBool _ | JInt _ | JFloat _ | JStr _ | JArr _ => Raised TypeError
  end.

End Py.
Import Py.

(** ** Data model *)

(** [{"role": ..., "content": ...}].  The content of an assistant message is
    whatever sits at [choices[0].message.content] of the response, so it is a
    [json], not necessarily a [str]. *)
Record message : Type := Message { role : string; content : json }.

(** The three attributes of [st.session_state] the script uses; [None] is
    an attribute that is not in the session state. *)
Record session : Type := Session {
  messages : option (list message);
  decision_context : option string;
  current_decision : option string
}.

(** The session state of a fresh session: nothing set. *)
Definition new_session : session :=
  {| messages := None; decision_context := None; current_decision := None |}.

(** The [json=] argument of [requests.post]. *)
Record payload : Type := Payload {
  p_messages : list message;
  p_model : string;
  p_max_tokens : Z;
  p_temperature : Q;
  p_stream : bool
}.

(** What one run shows or sends, in order. *)
Inductive event : Type :=
| st_title_ev (body : string)
| st_header_ev (body : string)
| st_markdown_ev (body : json)
| st_error_ev (body : string)
| st_info_ev (body : string)
| st_spinner_ev (text : string)
| st_chat_message_ev (name : string)
| requests_post_ev (url : string) (headers : list (string * string))
                   (body : payload).

(** ** The environment of one run *)

(** What the widgets return in this run.  [text_area] is the text the user
    has put in the context box, [None] when they left it alone (the widget
    then returns its [value=] argument); a button is [true] in the run its
    click caused; [chat_input] is the submitted prompt, if any. *)
Record ui_input : Type := UiInput {
  text_area : option string;
  button_start_new_decision : bool;
  button_clear_conversation : bool;
  chat_input : option string;
  button_moving_decision : bool;
  button_education_choice : bool;
  button_career_change : bool
}.

(** The [requests.Response]: its status, the text [raise_for_status] puts in
    the [HTTPError], and what [.json()] does. *)
Record response : Type := Response {
  status_code : Z;
  http_error_msg : string;
  json_body : exc + json
}.

(** What [requests.post] does in this run. *)
Inductive post_result : Type :=
| PostRaises (e : exc)
| PostReturns (r : response).

(** [st.secrets]: there is no secrets file (then any access raises, with
    the text [msg]), or there is one, with its entries. *)
Inductive secrets_store : Type :=
| NoSecretsFile (msg : string)
| SecretsFile (entries : gmap string string).

(** The entry of a key, if the store has one. *)
#[global] Instance secrets_store_lookup : Lookup string string secrets_store :=
  fun key store =>
    match store with
    | NoSecretsFile _ => None
    | SecretsFile entries => entries !! key
    end.

Record env : Type := Env {
  secrets : secrets_store;
  post : post_result;
  ui : ui_input
}.

(** ** The monad of a run *)

Record world : Type := World {
  session_state : session;
  rendered : list event
}.

Definition M (A : Type) : Type := world -> result A * world.

#[global] Instance M_ret : MRet M := fun A a w => (Returned a, w).

#[global] Instance M_bind : MBind M := fun A B f m w =>
  match m w with
  | (Returned a, w') => f a w'
  | (Raised e, w') => (Raised e, w')
  end.

Definition raise {A : Type} (e : exc) : M A := fun w => (Raised e, w).

Definition lift {A : Type} (r : result A) : M A := fun w => (r, w).

(** [try: body  except C1 as e: h1  except C2 as e: h2 ...]: the first
    clause whose class the exception is an instance of handles it. *)
Fixpoint dispatch {A : Type} (handlers : list ((exc -> bool) * (exc -> M A)))
    (e : exc) : M A :=
  match handlers with
  | [] => raise e
  | (cls, h) :: rest => if cls e then h e else dispatch rest e
  end.

Definition try_except {A : Type} (body : M A)
    (handlers : list ((exc -> bool) * (exc -> M A))) : M A := fun w =>
  match body w with
  | (Returned a, w') => (Returned a, w')
  | (Raised e, w') => dispatch handlers e w'
  end.

(** [for x in l: body x] *)
Fixpoint for_each {A : Type} (l : list A) (body : A -> M unit) : M unit :=
  match l with
  | [] => mret tt
  | x :: l' => body x ;; for_each l' body
  end.

Definition emit (ev : event) : M unit := fun w =>
  (Returned tt, {| session_state := session_state w;
                   rendered := rendered w ++ [ev] |}).

Definition get_session : M session := fun w => (Returned (session_state w), w).

Definition put_session (s : session) : M unit := fun w =>
  (Returned tt, {| session_state := s; rendered := rendered w |}).

(** Streamlit calls *)
Definition st_title (body : string) : M unit := emit (st_title_ev body).
Definition st_header (body : string) : M unit := emit (st_header_ev body).
Definition st_markdown (body : json) : M unit := emit (st_markdown_ev body).
Definition st_error (body : string) : M unit := emit (st_error_ev body).
Definition st_info (body : string) : M unit := emit (st_info_ev body).
Definition st_spinner (text : string) : M unit := emit (st_spinner_ev text).
Definition st_chat_message (name : string) : M unit :=
  emit (st_chat_message_ev name).
Definition st_stop {A : Type} : M A := raise StopException.
Definition st_rerun {A : Type} : M A := raise RerunException.

(** Reading and writing the attributes of [st.session_state] *)
Definition get_messages : M (list message) :=
  s ← get_session;
  match messages s with
  | Some l => mret l
  | None => raise (AttributeError "messages")
  end.

Definition get_decision_context : M string :=
  s ← get_session;
  match decision_context s with
  | Some c => mret c
  | None => raise (AttributeError "decision_context")
  end.

Definition set_messages (l : list message) : M unit :=
  s ← get_session;
  put_session {| messages := Some l;
                 decision_context := decision_context s;
                 current_decision := current_decision s |}.

Definition set_decision_context (c : string) : M unit :=
  s ← get_session;
  put_session {| messages := messages s;
                 decision_context := Some c;
                 current_decision := current_decision s |}.

Definition set_current_decision (c : string) : M unit :=
  s ← get_session;
  put_session {| messages := messages s;
                 decision_context := decision_context s;
                 current_decision := Some c |}.

(** [st.session_state.messages.append(m)] *)
Definition append_message (m : message) : M unit :=
  l ← get_messages; set_messages (l ++ [m]).

(** ** The script *)

Definition LF : string := String (Ascii.ascii_of_nat 10) EmptyString.
Definition DQUOTE : string := String (Ascii.ascii_of_nat 34) EmptyString.

Definition API_URL : string :=
  "https://router.huggingface.co/v1/chat/completions".

Definition default_model : string := "Qwen/Qwen3-VL-8B-Instruct:novita".

(** [get_headers], lines 17-29.  [st.secrets["HF_TOKEN"]] raises [KeyError]
    when the file is there and the key is missing; the handler reports and
    stops the run.  With no secrets file it raises
    [StreamlitSecretNotFoundError], which [except KeyError] does not
    catch. *)
Definition get_headers (e : env) : M (list (string * string)) :=
  hf_token ← try_except
    (match secrets e with
     | NoSecretsFile msg => raise (StreamlitSecretNotFoundError msg)
     | SecretsFile entries =>
         match entries !! "HF_TOKEN" with
         | Some t => mret t
         | None => raise (KeyError "HF_TOKEN")
         end
     end)
    [(isinstance_KeyError, fun _ =>
        st_error "HF_TOKEN not found in secrets.toml. Please add it to your Streamlit secrets." ;;
        st_info ("Add the following to your .streamlit/secrets.toml file:"
                 +:+ LF +:+ LF +:+ "```" +:+ LF +:+ "HF_TOKEN = " +:+ DQUOTE
                 +:+ "your_token_here" +:+ DQUOTE +:+ LF +:+ "```") ;;
        st_stop)];
  mret [("Authorization", "Bearer " +:+ hf_token);
        ("Content-Type", "application/json")].

(** [requests.post(url, headers=..., json=...)]: the request leaves, then
    the environment decides what comes back. *)
Definition requests_post (e : env) (url : string)
    (headers : list (string * string)) (body : payload) : M response :=
  emit (requests_post_ev url headers body) ;;
  match post e with
  | PostRaises x => raise x
  | PostReturns r => mret r
  end.

(** [response.raise_for_status()]: [HTTPError] for a 4xx or 5xx status. *)
Definition raise_for_status (r : response) : M unit :=
  if (400 <=? status_code r) && (status_code r <? 600)
  then raise (HTTPError (http_error_msg r))
  else mret tt.

(** [response.json()] *)
Definition response_json (r : response) : M json :=
  match json_body r with
  | inl x => raise x
  | inr v => mret v
  end.

(** [query_ai], lines 31-51.  [get_headers()] is evaluated inside the [try],
    as an argument of [requests.post]. *)
Definition query_ai (e : env) (msgs : list message) (model : string)
    : M json :=
  let payload :=
    {| p_messages := msgs;
       p_model := model;
       p_max_tokens := 500;
       p_temperature := Qmake 7 10;
       p_stream := false |} in
  try_except
    (headers ← get_headers e;
     response ← requests_post e API_URL headers payload;
     raise_for_status response ;;
     response_json response)
    [(isinstance_RequestException, fun x =>
        st_error ("API request failed: " +:+ str x) ;;
        mret JNull);
     (isinstance_JSONDecodeError, fun x =>
        st_error ("Failed to parse API response: " +:+ str x) ;;
        mret JNull)].

(** [initialize_session_state], lines 53-60 *)
Definition initialize_session_state : M unit :=
  s ← get_session;
  (if messages s is None then set_messages [] else mret tt) ;;
  s ← get_session;
  (if decision_context s is None then set_decision_context EmptyString
   else mret tt) ;;
  s ← get_session;
  (if current_decision s is None then set_current_decision EmptyString
   else mret tt).

(** [create_system_prompt], lines 62-77 *)
Definition base_prompt : string :=
"You are Decidr, an expert decision-making assistant. Your role is to help users make thoughtful, well-informed decisions by:

1. Asking clarifying questions to understand the situation fully
2. Helping identify pros and cons
3. Considering different perspectives and potential outcomes
4. Suggesting decision-making frameworks when appropriate
5. Providing objective analysis while respecting the user's values and preferences

Be conversational, empathetic, and practical. Ask one question at a time to avoid overwhelming the user. Help them think through their decision systematically.".

Definition create_system_prompt (decision_context : string) : string :=
  match decision_context with
  | String _ _ =>
      base_prompt +:+ LF +:+ LF +:+ "Current decision context: "
      +:+ decision_context
  | EmptyString => base_prompt
  end.

(** The test [response and "choices" in response] of lines 115 and 168:
    a falsy [response] settles it, otherwise the membership test runs. *)
Definition has_choices (response : json) : result bool :=
  if truthy response then contains response "choices" else Returned false.

(** [response["choices"][0]["message"]["content"]], lines 116 and 169 *)
Definition reply_content (response : json) : result json :=
  choices ← getitem_str response "choices";
  choice ← getitem_int choices 0;
  msg ← getitem_str choice "message";
  getitem_str msg "content".

Definition user_message (text : string) : message :=
  {| role := "user"; content := JStr text |}.

Definition assistant_message (reply : json) : message :=
  {| role := "assistant"; content := reply |}.

Definition system_message (decision_context : string) : message :=
  {| role := "system";
     content := JStr (create_system_prompt decision_context) |}.

(** The body of the Start New Decision button, lines 103-121 *)
Definition start_new_decision (e : env) (decision_context : string)
    : M unit :=
  set_messages [] ;;
  set_current_decision decision_context ;;
  (if decision_context is String _ _ then
     let initial_messages :=
       [system_message decision_context;
        user_message ("I need help deciding: " +:+ decision_context)] in
     st_spinner "Getting AI response..." ;;
     response ← query_ai e initial_messages default_model;
     ok ← lift (has_choices response);
     if (ok : bool) then
       ai_message ← lift (reply_content response);
       set_messages
         [user_message ("I need help deciding: " +:+ decision_context);
          assistant_message ai_message]
     else mret tt
   else mret tt) ;;
  st_rerun.

(** The body of the Clear Conversation button, lines 125-126 *)
Definition clear_conversation : M unit :=
  set_messages [] ;;
  st_rerun.

(** The body of the chat input, lines 153-175 *)
Definition submit_message (e : env) (prompt : string) : M unit :=
  append_message (user_message prompt) ;;
  st_chat_message "user" ;;
  st_markdown (JStr prompt) ;;
  ctx ← get_decision_context;
  history ← get_messages;
  let ai_messages := ([system_message ctx] ++ history)%list in
  st_chat_message "assistant" ;;
  st_spinner "Thinking..." ;;
  response ← query_ai e ai_messages default_model;
  ok ← lift (has_choices response);
  if (ok : bool) then
    ai_message ← lift (reply_content response);
    st_markdown ai_message ;;
    append_message (assistant_message ai_message)
  else st_error "Sorry, I couldn't get a response. Please try again.".

Definition moving_example : string :=
  "I'm trying to decide whether to move to a new city for a job opportunity. Can you help me think through this decision?".

Definition education_example : string :=
  "I'm having trouble choosing between different college majors. How should I approach this decision?".

Definition career_example : string :=
  "I'm considering changing careers but I'm not sure if it's the right move. Can you help me evaluate this?".

(** The body of an example button, lines 191-193, 197-199 and 203-205 *)
Definition example_click (example_prompt : string) : M unit :=
  append_message (user_message example_prompt) ;;
  st_rerun.

(** The onboarding block shown while the history is empty, lines 179-205 *)
Definition get_started (e : env) : M unit :=
  st_markdown (JStr "### 🚀 Get Started") ;;
  st_markdown (JStr "To begin, either:") ;;
  st_markdown (JStr "1. **Describe your decision** in the sidebar and click 'Start New Decision'") ;;
  st_markdown (JStr "2. **Ask a question** directly in the chat below") ;;
  st_markdown (JStr "### 📝 Example Decision Scenarios") ;;
  (if button_moving_decision (ui e) then example_click moving_example
   else mret tt) ;;
  (if button_education_choice (ui e) then example_click education_example
   else mret tt) ;;
  (if button_career_change (ui e) then example_click career_example
   else mret tt).

Definition decision_tips : string :=
"
        **Good decisions often involve:**
        - Clearly defining the problem
        - Identifying your values and priorities
        - Considering multiple options
        - Weighing pros and cons
        - Thinking about long-term consequences
        - Getting input from trusted sources
        - Setting a decision deadline
        ".

Definition footer : string :=
  "<div style='text-align: center; color: #666;'>"
  +:+ "Decidr helps you make better decisions through AI-powered conversation. "
  +:+ "Remember, the final decision is always yours! 🎯"
  +:+ "</div>".

(** The decision context box, lines 91-99: the widget is created with the
    stored context as its value, and what it returns is stored back when it
    differs. *)
Definition context_box (e : env) : M string :=
  stored ← get_decision_context;
  let decision_context := default stored (text_area (ui e)) in
  (if negb (String.eqb decision_context stored)
   then set_decision_context decision_context else mret tt) ;;
  mret decision_context.

(** [main], lines 79-215: one run of the script.  ([st.set_page_config],
    at module level, comes before it in every run and touches neither the
    session state nor the API.) *)
Definition main (e : env) : M unit :=
  initialize_session_state ;;
  st_title "🤔 Decidr" ;;
  st_markdown (JStr "### Your AI-powered decision-making assistant") ;;
  (* with st.sidebar: *)
  st_header "Decision Setup" ;;
  decision_context ← context_box e;
  (if button_start_new_decision (ui e)
   then start_new_decision e decision_context else mret tt) ;;
  (if button_clear_conversation (ui e)
   then clear_conversation else mret tt) ;;
  st_markdown (JStr "---") ;;
  st_header "💡 Decision Tips" ;;
  st_markdown (JStr decision_tips) ;;
  (* main chat interface *)
  st_markdown (JStr "---") ;;
  history ← get_messages;
  for_each history (fun message =>
    st_chat_message (role message) ;;
    st_markdown (content message)) ;;
  (match chat_input (ui e) with
   | Some (String c p) => submit_message e (String c p)
   | Some EmptyString | None => mret tt
   end) ;;
  history ← get_messages;
  (match (history : list message) with
   | [] => get_started e
   | _ :: _ => mret tt
   end) ;;
  st_markdown (JStr "---") ;;
  st_markdown (JStr footer).

(** One run of the script on session state [s]: the run starts with nothing
    rendered. *)
Definition run (e : env) (s : session) : result unit * world :=
  main e {| session_state := s; rendered := [] |}.

Definition run_outcome (e : env) (s : session) : result unit := (run e s).1.
Definition run_session (e : env) (s : session) : session :=
  session_state (run e s).2.
Definition run_rendered (e : env) (s : session) : list event :=
  rendered (run e s).2.

(** The history a session holds ([[]] before the first run has set it). *)
Definition history_of (s : session) : list message :=
  default [] (messages s).

(** A sequence of runs, each on the session state the one before left. *)
Fixpoint runs (es : list env) (s : session) : session :=
  match es with
  | [] => s
  | e :: es' => runs es' (run_session e s)
  end.

Definition is_post (ev : event) : bool :=
  match ev with requests_post_ev _ _ _ => true | _ => false end.

(** The requests one run sent. *)
Definition posts (log : list event) : list event :=
  List.filter is_post log.

(** ** What the remote side's answer amounts to *)

(** [raise_for_status] raises on this response. *)
Definition http_failure (r : response) : bool :=
  (400 <=? status_code r) && (status_code r <? 600).

(** The text at [choices[0].message.content] of a body of the expected
    shape: an object whose ["choices"] is a list that starts with an object
    whose ["message"] is an object with a ["content"]. *)
Definition well_shaped (body : json) : option json :=
  match body with
  | JObj o =>
      match o !! "choices" with
      | Some (JArr (JObj choice :: _)) =>
          match choice !! "message" with
          | Some (JObj msg) => msg !! "content"
          | _ => None
          end
      | _ => None
      end
  | _ => None
  end.

(** The API call of a run succeeds with reply [c]: the token is there, the
    POST comes back with a status that is no failure, its body parses and
    has the expected shape.  [call_outcome_api_reply] below shows that these
    are the runs in which the handlers extract a reply, and that [c] is what
    they extract. *)
Definition api_reply (e : env) : option json :=
  match secrets e !! "HF_TOKEN", post e with
  | Some _, PostReturns r =>
      if http_failure r then None
      else match json_body r with
           | inr body => well_shaped body
           | inl _ => None
           end
  | _, _ => None
  end.

(** How [query_ai] ends, read off the environment. *)
Inductive api_answer : Type :=
| NoSecrets (msg : string)
| NoToken
| Reported (report : string)
| Escaped (x : exc)
| Answered (body : json).

Definition classify (x : exc) : api_answer :=
  if isinstance_RequestException x
  then Reported ("API request failed: " +:+ str x)
  else if isinstance_JSONDecodeError x
  then Reported ("Failed to parse API response: " +:+ str x)
  else Escaped x.

Definition api_answer_of (e : env) : api_answer :=
  match secrets e !! "HF_TOKEN" with
  | None =>
      match secrets e with
      | NoSecretsFile msg => NoSecrets msg
      | SecretsFile _ => NoToken
      end
  | Some _ =>
      match post e with
      | PostRaises x => classify x
      | PostReturns r =>
          if http_failure r then classify (HTTPError (http_error_msg r))
          else match json_body r with
               | inl x => classify x
               | inr body => Answered body
               end
      end
  end.

(** The world after some more events. *)
Definition after (w : world) (evs : list event) : world :=
  {| session_state := session_state w; rendered := rendered w ++ evs |}.

Definition headers_of (e : env) : list (string * string) :=
  [("Authorization", "Bearer " +:+ default EmptyString (secrets e !! "HF_TOKEN"));
   ("Content-Type", "application/json")].

Definition payload_of (msgs : list message) (model : string) : payload :=
  {| p_messages := msgs;
     p_model := model;
     p_max_tokens := 500;
     p_temperature := Qmake 7 10;
     p_stream := false |}.

Definition missing_token_events : list event :=
  [st_error_ev "HF_TOKEN not found in secrets.toml. Please add it to your Streamlit secrets.";
   st_info_ev ("Add the following to your .streamlit/secrets.toml file:"
               +:+ LF +:+ LF +:+ "```" +:+ LF +:+ "HF_TOKEN = " +:+ DQUOTE
               +:+ "your_token_here" +:+ DQUOTE +:+ LF +:+ "```")].

(** What [query_ai] returns or raises, and what it renders and sends. *)
Definition query_result (e : env) : result json :=
  match api_answer_of e with
  | NoSecrets msg => Raised (StreamlitSecretNotFoundError msg)
  | NoToken => Raised StopException
  | Reported _ => Returned JNull
  | Escaped x => Raised x
  | Answered body => Returned body
  end.

Definition call_events (e : env) (msgs : list message) (model : string)
    : list event :=
  let sent := requests_post_ev API_URL (headers_of e) (payload_of msgs model) in
  match api_answer_of e with
  | NoSecrets _ => []
  | NoToken => missing_token_events
  | Reported report => [sent; st_error_ev report]
  | Escaped _ | Answered _ => [sent]
  end.

(** What a handler makes of the response: a reply is extracted, or the
    handler takes its branch for no reply, or an exception leaves it. *)
Inductive call_outcome : Type :=
| CallReply (c : json)
| CallNoReply
| CallRaised (x : exc).

Definition reply_outcome_of (body : json) : call_outcome :=
  match has_choices body with
  | Raised x => CallRaised x
  | Returned false => CallNoReply
  | Returned true =>
      match reply_content body with
      | Returned c => CallReply c
      | Raised x => CallRaised x
      end
  end.

Definition handler_outcome (r : result json) : call_outcome :=
  match r with
  | Raised x => CallRaised x
  | Returned body => reply_outcome_of body
  end.

Definition call_outcome_of (e : env) : call_outcome :=
  handler_outcome (query_result e).

(** What [initialize_session_state] leaves. *)
Definition initialized (s : session) : session :=
  {| messages := Some (history_of s);
     decision_context := Some (default EmptyString (decision_context s));
     current_decision := Some (default EmptyString (current_decision s)) |}.

(** The context a run works with: what the context box returns. *)
Definition context_of (e : env) (s : session) : string :=
  default (default EmptyString (decision_context s)) (text_area (ui e)).

(** ** Closed forms of the blocks and of a run *)

(** What the transcript loop of lines 146-148 renders. *)
Definition display_events (h : list message) : list event :=
  flat_map (fun m => [st_chat_message_ev (role m); st_markdown_ev (content m)]) h.

(** The user message a new decision opens with. *)
Definition opening (ctx : string) : list message :=
  [user_message ("I need help deciding: " +:+ ctx)].

(** Closed form of [start_new_decision] on a world. *)
Definition start_summary (e : env) (ctx : string) (d : option string)
    (r : list event) : result unit * world :=
  match ctx with
  | EmptyString =>
      (Raised RerunException, World (Session (Some []) d (Some ctx)) r)
  | String _ _ =>
      (Raised (match call_outcome_of e with
               | CallRaised x => x
               | CallReply _ | CallNoReply => RerunException
               end),
       World (Session (Some (match call_outcome_of e with
                             | CallReply c =>
                                 opening ctx ++ [assistant_message c]
                             | CallNoReply | CallRaised _ => []
                             end)) d (Some ctx))
             (r ++ st_spinner_ev "Getting AI response..."
                :: call_events e (system_message ctx :: opening ctx)
                     default_model))
  end.

(** Closed form of [submit_message] on a world. *)
Definition submit_summary (e : env) (prompt : string) (h : list message)
    (ctx : string) (cd : option string) (r : list event)
    : result unit * world :=
  let h1 := h ++ [user_message prompt] in
  let shown :=
    r ++ [st_chat_message_ev "user"; st_markdown_ev (JStr prompt);
          st_chat_message_ev "assistant"; st_spinner_ev "Thinking..."]
      ++ call_events e (system_message ctx :: h1) default_model in
  match call_outcome_of e with
  | CallReply c =>
      (Returned tt,
       World (Session (Some (h1 ++ [assistant_message c])) (Some ctx) cd)
             (shown ++ [st_markdown_ev c]))
  | CallNoReply =>
      (Returned tt,
       World (Session (Some h1) (Some ctx) cd)
             (shown ++ [st_error_ev
                "Sorry, I couldn't get a response. Please try again."]))
  | CallRaised x =>
      (Raised x, World (Session (Some h1) (Some ctx) cd) shown)
  end.

Definition intro_events : list event :=
  [st_title_ev "🤔 Decidr";
   st_markdown_ev (JStr "### Your AI-powered decision-making assistant");
   st_header_ev "Decision Setup"].

Definition tips_events : list event :=
  [st_markdown_ev (JStr "---");
   st_header_ev "💡 Decision Tips";
   st_markdown_ev (JStr decision_tips);
   st_markdown_ev (JStr "---")].

Definition get_started_events : list event :=
  [st_markdown_ev (JStr "### 🚀 Get Started");
   st_markdown_ev (JStr "To begin, either:");
   st_markdown_ev (JStr "1. **Describe your decision** in the sidebar and click 'Start New Decision'");
   st_markdown_ev (JStr "2. **Ask a question** directly in the chat below");
   st_markdown_ev (JStr "### 📝 Example Decision Scenarios")].

Definition footer_events : list event :=
  [st_markdown_ev (JStr "---"); st_markdown_ev (JStr footer)].

(** The example whose button was clicked, the leftmost first. *)
Definition example_choice (e : env) : option string :=
  if button_moving_decision (ui e) then Some moving_example
  else if button_education_choice (ui e) then Some education_example
  else if button_career_change (ui e) then Some career_example
  else None.

Definition then_footer (res : result unit * world) : result unit * world :=
  match res with
  | (Returned _, w) => (Returned tt, after w footer_events)
  | (Raised x, w) => (Raised x, w)
  end.

(** Closed form of one run. *)
Definition run_summary (e : env) (s : session) : result unit * world :=
  let h := history_of s in
  let ctx := context_of e s in
  let cd := Some (default EmptyString (current_decision s)) in
  if button_start_new_decision (ui e) then
    start_summary e ctx (Some ctx) intro_events
  else if button_clear_conversation (ui e) then
    (Raised RerunException,
     World (Session (Some []) (Some ctx) cd) intro_events)
  else
    let shown := intro_events ++ tips_events ++ display_events h in
    match chat_input (ui e) with
    | Some (String c p) =>
        then_footer (submit_summary e (String c p) h ctx cd shown)
    | Some EmptyString | None =>
        match h with
        | [] =>
            match example_choice e with
            | Some example =>
                (Raised RerunException,
                 World (Session (Some [user_message example]) (Some ctx) cd)
                       (shown ++ get_started_events))
            | None =>
                (Returned tt,
                 World (Session (Some []) (Some ctx) cd)
                       (shown ++ get_started_events ++ footer_events))
            end
        | _ :: _ =>
            (Returned tt,
             World (Session (Some h) (Some ctx) cd) (shown ++ footer_events))
        end
    end.

(** ** Properties of histories and of runs *)

(** User and assistant messages alternate, a user message first. *)
Definition strictly_alternating (h : list message) : Prop :=
  forall (i : nat) (m : message), h !! i = Some m ->
    role m = if Nat.even i then "user" else "assistant".

(** No message of the system role. *)
Definition no_system (h : list message) : Prop :=
  Forall (fun m => role m <> "system") h.

(** A request whose message list is the message of role [system] whose
    content is the prompt built from [ctx], followed by messages of other
    roles. *)
Definition post_shape (ctx : string) (ev : event) : Prop :=
  match ev with
  | requests_post_ev _ _ body =>
      exists rest : list message,
        p_messages body =
          {| role := "system"; content := JStr (create_system_prompt ctx) |}
          :: rest /\
        no_system rest
  | _ => True
  end.

(** The run is the handling of a submitted chat message. *)
Definition is_submit (u : ui_input) : bool :=
  negb (button_start_new_decision u) && negb (button_clear_conversation u) &&
  match chat_input u with
  | Some (String _ _) => true
  | Some EmptyString | None => false
  end.

Definition api_succeeds (e : env) : bool :=
  match api_reply e with Some _ => true | None => false end.

Definition is_error (ev : event) : bool :=
  match ev with st_error_ev _ => true | _ => false end.

(** The errors one run showed. *)
Definition errors (log : list event) : list event :=
  List.filter is_error log.

(** ** Concrete environments *)

Definition example_secrets : secrets_store :=
  SecretsFile {[ "HF_TOKEN" := "hf_example" ]}.

Definition reply_body (c : json) : json :=
  JObj {[ "choices" :=
            JArr [JObj {[ "message" := JObj {[ "content" := c ]} ]}] ]}.

Definition empty_choices_body : json := JObj {[ "choices" := JArr [] ]}.

Definition no_message_body : json :=
  JObj {[ "choices" := JArr [JObj {[ "index" := JInt 0 ]}] ]}.

Definition ok_response (body : json) : response :=
  {| status_code := 200; http_error_msg := EmptyString; json_body := inr body |}.

Definition unavailable_response : response :=
  {| status_code := 503;
     http_error_msg := "503 Server Error: Service Unavailable";
     json_body := inr JNull |}.

Definition not_json_response : response :=
  {| status_code := 200; http_error_msg := EmptyString;
     json_body := inl (JSONDecodeError "Expecting value: line 1 column 1 (char 0)") |}.

Definition no_action : ui_input :=
  {| text_area := None;
     button_start_new_decision := false;
     button_clear_conversation := false;
     chat_input := None;
     button_moving_decision := false;
     button_education_choice := false;
     button_career_change := false |}.

Definition start_click (ctx : string) : ui_input :=
  {| text_area := Some ctx;
     button_start_new_decision := true;
     button_clear_conversation := false;
     chat_input := None;
     button_moving_decision := false;
     button_education_choice := false;
     button_career_change := false |}.

Definition clear_click : ui_input :=
  {| text_area := None;
     button_start_new_decision := false;
     button_clear_conversation := true;
     chat_input := None;
     button_moving_decision := false;
     button_education_choice := false;
     button_career_change := false |}.

Definition chat_submit (prompt : string) : ui_input :=
  {| text_area := None;
     button_start_new_decision := false;
     button_clear_conversation := false;
     chat_input := Some prompt;
     button_moving_decision := false;
     button_education_choice := false;
     button_career_change := false |}.

Definition moving_click : ui_input :=
  {| text_area := None;
     button_start_new_decision := false;
     button_clear_conversation := false;
     chat_input := None;
     button_moving_decision := true;
     button_education_choice := false;
     button_career_change := false |}.

Definition env_of (r : response) (u : ui_input) : env :=
  {| secrets := example_secrets; post := PostReturns r; ui := u |}.

Definition first_submit : env :=
  env_of (ok_response (reply_body (JStr "What matters most to you?")))
         (chat_submit "Should I move?").

Definition second_submit : env :=
  env_of (ok_response (reply_body (JStr "How long is the commute?")))
         (chat_submit "The salary.").

Definition failed_submit : env :=
  env_of unavailable_response (chat_submit "Should I move?").

(** ** More predicates on runs, and more environments *)

(** The form of every request the script sends: to [API_URL], with the
    token of the secrets as bearer, the default model and the fixed
    parameters. *)
Definition request_form (e : env) (ev : event) : Prop :=
  match ev with
  | requests_post_ev url headers body =>
      url = API_URL /\
      (exists tok : string,
         secrets e !! "HF_TOKEN" = Some tok /\
         headers = [("Authorization", "Bearer " +:+ tok);
                    ("Content-Type", "application/json")]) /\
      p_model body = default_model /\
      p_max_tokens body = 500 /\
      p_temperature body = Qmake 7 10 /\
      p_stream body = false
  | _ => True
  end.

(** The run has a chat message to handle. *)
Definition has_prompt (u : ui_input) : bool :=
  match chat_input u with
  | Some (String _ _) => true
  | Some EmptyString | None => false
  end.

(** A secrets file without the token. *)
Definition no_token_env (u : ui_input) : env :=
  {| secrets := SecretsFile ∅;
     post := PostReturns unavailable_response;
     ui := u |}.


Definition timeout_env (u : ui_input) : env :=
  {| secrets := example_secrets;
     post := PostRaises (RequestException "Read timed out.");
     ui := u |}.
(** The messages a run passes to [query_ai], when it calls it. *)
Definition run_call (e : env) (s : session) : option (list message) :=
  let ctx := context_of e s in
  if button_start_new_decision (ui e) then
    match ctx with
    | String _ _ => Some (system_message ctx :: opening ctx)
    | EmptyString => None
    end
  else if button_clear_conversation (ui e) then None
  else
    match chat_input (ui e) with
    | Some (String a p) =>
        Some (system_message ctx
              :: history_of s ++ [user_message (String a p)])
    | Some EmptyString | None => None
    end.
Definition no_choices_body : json := JObj {[ "error" := JStr "model is loading" ]}.
(** Nothing is clicked or submitted in the run. *)
Definition quiet (u : ui_input) : bool :=
  negb (button_start_new_decision u) && negb (button_clear_conversation u) &&
  negb (has_prompt u) && negb (button_moving_decision u) &&
  negb (button_education_choice u) && negb (button_career_change u).

(** The run keeps the turns of the conversation in step: it starts a
    decision, clears the conversation, submits a message that is answered,
    or does nothing. *)
Definition keeps_turns (e : env) : bool :=
  button_start_new_decision (ui e) || button_clear_conversation (ui e) ||
  (if has_prompt (ui e) then api_succeeds e else quiet (ui e)).

Definition context_edit (ctx : string) : ui_input :=
  {| text_area := Some ctx;
     button_start_new_decision := false;
     button_clear_conversation := false;
     chat_input := None;
     button_moving_decision := false;
     button_education_choice := false;
     button_career_change := false |}.

Definition education_click : ui_input :=
  {| text_area := None;
     button_start_new_decision := false;
     button_clear_conversation := false;
     chat_input := None;
     button_moving_decision := false;
     button_education_choice := true;
     button_career_change := false |}.
Definition start_and_more (ctx : string) : ui_input :=
  {| text_area := Some ctx;
     button_start_new_decision := true;
     button_clear_conversation := true;
     chat_input := Some "Should I move?";
     button_moving_decision := true;
     button_education_choice := false;
     button_career_change := false |}.
Definition broken_env (u : ui_input) : env :=
  {| secrets := example_secrets;
     post := PostRaises (OtherException "maximum recursion depth exceeded");
     ui := u |}.

(** ** Lemmas on the monad and on the blocks of the script *)

Ltac msimpl :=
  repeat (progress (unfold mbind, M_bind, mret, M_ret, result_bind,
                      result_ret, raise, lift, st_error, st_info, st_stop,
                      st_rerun, st_markdown, st_title, st_header, st_spinner,
                      st_chat_message, append_message, get_messages,
                      get_decision_context, set_messages,
                      set_decision_context, set_current_decision,
                      get_session, put_session, emit; cbn)).

Ltac world_eq :=
  unfold after, payload_of; cbn; rewrite <- ?app_assoc; reflexivity.

(** The Python operations on a few values *)
Example truthy_empty_dict : truthy (JObj ∅) = false.
Proof. reflexivity. Qed.

Example contains_is_substring_on_str :
  contains (JStr "no choices here") "choices" = Returned true.
Proof. reflexivity. Qed.

Example contains_raises_on_int : contains (JInt 7) "choices" = Raised TypeError.
Proof. reflexivity. Qed.

Example getitem_int_by_code_point :
  getitem_int (JStr "añb") 1 = Returned (JStr "ñ").
Proof. reflexivity. Qed.

Example reply_content_of_reply_body :
  reply_content (reply_body (JStr "Tell me more.")) =
  Returned (JStr "Tell me more.").
Proof. reflexivity. Qed.

Example run_without_action :
  run_outcome (env_of unavailable_response no_action) new_session = Returned tt /\
  messages (run_session (env_of unavailable_response no_action) new_session) =
    Some [].
Proof. split; reflexivity. Qed.

Lemma query_ai_eq (e : env) (msgs : list message) (model : string) (w : world) :
  query_ai e msgs model w = (query_result e, after w (call_events e msgs model)).
Proof.
  unfold query_ai, query_result, call_events, api_answer_of, get_headers,
    headers_of, try_except, requests_post, raise_for_status, response_json,
    http_failure.
  destruct (secrets e) as [msg|entries].
  { change (NoSecretsFile msg !! "HF_TOKEN") with (@None string). msimpl.
    destruct w as [s r]. unfold after. cbn. by rewrite app_nil_r. }
  change (SecretsFile entries !! "HF_TOKEN") with (entries !! "HF_TOKEN").
  msimpl.
  destruct (entries !! "HF_TOKEN") as [tok|] eqn:Htok; msimpl.
  - destruct (post e) as [x|r]; msimpl.
    + unfold classify. destruct x; msimpl; world_eq.
    + destruct ((400 <=? status_code r) && (status_code r <? 600)); msimpl.
      * world_eq.
      * destruct (json_body r) as [x|body]; msimpl; [|world_eq].
        unfold classify. destruct x; msimpl; world_eq.
  - world_eq.
Qed.

Lemma posts_app (l1 l2 : list event) : posts (l1 ++ l2) = posts l1 ++ posts l2.
Proof. unfold posts. apply List.filter_app. Qed.

Lemma lookup_size_nonzero (o : gmap string json) (k : string) (v : json) :
  o !! k = Some v -> Nat.eqb (size o) 0 = false.
Proof.
  intros Hk. apply Nat.eqb_neq. intros Hsz.
  apply map_size_empty_iff in Hsz. subst o. by rewrite lookup_empty in Hk.
Qed.

(** The reply the handlers extract is the one of a well-shaped body, and
    they extract one from no other body. *)
Lemma reply_outcome_well_shaped (body c : json) :
  reply_outcome_of body = CallReply c <-> well_shaped body = Some c.
Proof.
  unfold reply_outcome_of, has_choices, reply_content, well_shaped.
  destruct body as [| b | n | q | s | l | o]; cbn;
    try (split; [| discriminate]).
  - discriminate.
  - destruct b; discriminate.
  - destruct (negb (n =? 0)); discriminate.
  - destruct (negb _); discriminate.
  - destruct s; [discriminate|]. destruct (is_substring _ _); discriminate.
  - destruct l; [discriminate|]. destruct (existsb _ _); discriminate.
  - destruct (o !! "choices") as [ch|] eqn:Hch; cbn.
    + rewrite (lookup_size_nonzero _ _ _ Hch); cbn.
      destruct ch as [| b | n | q | s | l | o']; cbn;
        try (split; discriminate).
      * destruct (codepoints s !! 0%nat); cbn; split; discriminate.
      * destruct l as [|x l]; cbn; [split; discriminate|].
        destruct x as [| b | n | q | s | l' | ch0]; cbn;
          try (split; discriminate).
        destruct (ch0 !! "message") as [m|]; cbn; [|split; discriminate].
        destruct m as [| b | n | q | s | l' | m0]; cbn;
          try (split; discriminate).
        destruct (m0 !! "content"); cbn; split; congruence.
    + destruct (negb _); split; discriminate.
Qed.

(** The runs whose API call succeeds, as [api_reply] has it, are those in
    which the handlers extract a reply from what [query_ai] returned. *)
Lemma call_outcome_api_reply (e : env) (c : json) :
  call_outcome_of e = CallReply c <-> api_reply e = Some c.
Proof.
  unfold call_outcome_of, query_result, api_answer_of, api_reply, classify.
  destruct (secrets e !! "HF_TOKEN");
    [|destruct (secrets e); split; discriminate].
  destruct (post e) as [x|r].
  - destruct x; cbn; split; discriminate.
  - destruct (http_failure r); cbn; [split; discriminate|].
    destruct (json_body r) as [x|body].
    + destruct x; cbn; split; discriminate.
    + apply reply_outcome_well_shaped.
Qed.

Lemma initialize_session_state_eq (s : session) (r : list event) :
  initialize_session_state (World s r) = (Returned tt, World (initialized s) r).
Proof. destruct s as [[h|] [d|] [c|]]; reflexivity. Qed.

Lemma context_box_eq (e : env) (m : option (list message)) (stored : string)
    (cd : option string) (r : list event) :
  context_box e (World (Session m (Some stored) cd) r) =
  (Returned (default stored (text_area (ui e))),
   World (Session m (Some (default stored (text_area (ui e)))) cd) r).
Proof.
  unfold context_box. destruct (text_area (ui e)) as [t|]; msimpl.
  - destruct (String.eqb t stored) eqn:Heq; msimpl; [|reflexivity].
    apply String.eqb_eq in Heq. by subst t.
  - by rewrite String.eqb_refl.
Qed.

Lemma for_each_display (h : list message) (s : session) (r : list event) :
  for_each h (fun message =>
    st_chat_message (role message) ;; st_markdown (content message))
    (World s r) = (Returned tt, World s (r ++ display_events h)).
Proof.
  set (body := fun message : message => _).
  assert (Hbody : forall m r', body m (World s r') =
    (Returned tt,
     World s (r' ++ [st_chat_message_ev (role m); st_markdown_ev (content m)]))).
  { intros m r'. subst body. msimpl. by rewrite <- app_assoc. }
  clearbody body. revert r.
  induction h as [|m h IH]; intros r; cbn [for_each]; unfold mbind, M_bind.
  - cbn. by rewrite app_nil_r.
  - rewrite Hbody, IH. cbn. by rewrite <- app_assoc.
Qed.

Lemma start_new_decision_eq (e : env) (ctx : string) (m : option (list message))
    (d cd : option string) (r : list event) :
  start_new_decision e ctx (World (Session m d cd) r) = start_summary e ctx d r.
Proof.
  unfold start_new_decision, start_summary.
  destruct ctx as [|a ctx]; msimpl; [reflexivity|].
  rewrite query_ai_eq. unfold call_outcome_of, handler_outcome.
  destruct (query_result e) as [body|x]; msimpl.
  - unfold reply_outcome_of.
    destruct (has_choices body) as [[|]|x]; msimpl.
    + destruct (reply_content body) as [c|x]; msimpl; world_eq.
    + world_eq.
    + world_eq.
  - world_eq.
Qed.

Lemma submit_message_eq (e : env) (prompt : string) (h : list message)
    (ctx : string) (cd : option string) (r : list event) :
  submit_message e prompt (World (Session (Some h) (Some ctx) cd) r) =
  submit_summary e prompt h ctx cd r.
Proof.
  unfold submit_message, submit_summary. msimpl.
  rewrite query_ai_eq. unfold call_outcome_of, handler_outcome.
  destruct (query_result e) as [body|x]; msimpl.
  - unfold reply_outcome_of.
    destruct (has_choices body) as [[|]|x]; msimpl.
    + destruct (reply_content body) as [c|x]; msimpl; world_eq.
    + world_eq.
    + world_eq.
  - world_eq.
Qed.

Lemma get_started_eq (e : env) (h : list message) (d cd : option string)
    (r : list event) :
  get_started e (World (Session (Some h) d cd) r) =
  match example_choice e with
  | Some example =>
      (Raised RerunException,
       World (Session (Some (h ++ [user_message example])) d cd)
             (r ++ get_started_events))
  | None =>
      (Returned tt, World (Session (Some h) d cd) (r ++ get_started_events))
  end.
Proof.
  unfold get_started, example_choice, example_click. msimpl.
  destruct (button_moving_decision (ui e)); msimpl; [world_eq|].
  destruct (button_education_choice (ui e)); msimpl; [world_eq|].
  destruct (button_career_change (ui e)); msimpl; world_eq.
Qed.

(** One run is its closed form.  The blocks are kept folded while [main]
    is stepped through, each rewritten by its own lemma. *)
Section RunClosedForm.

#[local] Arguments initialize_session_state : simpl never.
#[local] Arguments context_box : simpl never.
#[local] Arguments start_new_decision : simpl never.
#[local] Arguments clear_conversation : simpl never.
#[local] Arguments submit_message : simpl never.
#[local] Arguments get_started : simpl never.
#[local] Arguments for_each : simpl never.
#[local] Arguments from_option : simpl never.

Lemma run_eq (e : env) (s : session) : run e s = run_summary e s.
Proof.
  unfold run, main, run_summary, context_of.
  msimpl. rewrite initialize_session_state_eq. unfold initialized. msimpl.
  rewrite context_box_eq. msimpl.
  destruct (button_start_new_decision (ui e)); msimpl.
  { rewrite start_new_decision_eq. unfold start_summary.
    destruct (default _ _); reflexivity. }
  destruct (button_clear_conversation (ui e)); msimpl.
  { unfold clear_conversation. msimpl. reflexivity. }
  rewrite for_each_display.
  destruct (chat_input (ui e)) as [[|c p]|]; msimpl.
  1, 3: destruct (history_of s) as [|m h]; msimpl;
    [ rewrite get_started_eq; destruct (example_choice e); msimpl; world_eq
    | world_eq ].
  rewrite submit_message_eq. unfold submit_summary, then_footer.
  destruct (call_outcome_of e); msimpl; [| |reflexivity].
  all: destruct (history_of s); msimpl; world_eq.
Qed.

End RunClosedForm.

(** ** The prompt builder *)

Lemma prefix_append (s t : string) : String.prefix s (s +:+ t) = true.
Proof.
  induction s as [|a s IH]; simpl.
  - by destruct t.
  - destruct (Ascii.ascii_dec a a); [exact IH|congruence].
Qed.

(** C6.  For every context [c], the empty one included, the prompt starts
    with the fixed template; for the empty context it is the template and
    nothing more; for any other context it is the template followed by the
    delimiter and the context, so the context is appended after the template
    and the template is left as it is. *)
Theorem create_system_prompt_template (c : string) :
  String.prefix base_prompt (create_system_prompt c) = true /\
  create_system_prompt EmptyString = base_prompt /\
  create_system_prompt c =
    base_prompt +:+
    (match c with
     | EmptyString => EmptyString
     | String _ _ => LF +:+ LF +:+ "Current decision context: " +:+ c
     end).
Proof.
  assert (H : create_system_prompt c =
    base_prompt +:+
    (match c with
     | EmptyString => EmptyString
     | String _ _ => LF +:+ LF +:+ "Current decision context: " +:+ c
     end)).
  { unfold create_system_prompt. destruct c as [|a c]; [|reflexivity].
    generalize base_prompt. intros b.
    induction b as [|x b IHb]; [done|].
    change (String x b = String x (b +:+ EmptyString)). by f_equal. }
  split; [|split; [done|exact H]].
  rewrite H. apply prefix_append.
Qed.

(** ** The session state *)

(** C10.  [initialize_session_state] returns, renders nothing, leaves each
    attribute that is present as it is and sets each absent one to its
    default ([[]] for [messages], the empty string for the two others);
    run again on its own result it changes nothing, and on a session that
    has all three attributes it changes nothing. *)
Theorem initialize_session_state_idempotent (s : session) (r : list event) :
  let res := initialize_session_state (World s r) in
  res.1 = Returned tt /\
  rendered res.2 = r /\
  messages (session_state res.2) = Some (default [] (messages s)) /\
  decision_context (session_state res.2) =
    Some (default EmptyString (decision_context s)) /\
  current_decision (session_state res.2) =
    Some (default EmptyString (current_decision s)) /\
  initialize_session_state res.2 = (Returned tt, res.2) /\
  (forall (h : list message) (d c : string),
     initialize_session_state (World (Session (Some h) (Some d) (Some c)) r) =
     (Returned tt, World (Session (Some h) (Some d) (Some c)) r)).
Proof.
  intros res. subst res. rewrite initialize_session_state_eq.
  cbn [fst snd]. rewrite initialize_session_state_eq.
  repeat split; by destruct s as [[h|] [d|] [c|]].
Qed.

(** ** The API client *)

(** C5.  With the token set and a response to the POST, [query_ai] sends
    exactly one request, whose body carries the given messages unchanged,
    [max_tokens] 500, [temperature] 0.7 and [stream] false.  On a 4xx or 5xx
    status it shows an error and returns [None]; on a body that is no JSON
    ([.json()] raises a JSON decode error, of [requests] or of [json]) it
    shows an error and returns [None]; on a body that parses it returns the
    parsed body whole.  The session state is untouched. *)
Theorem query_ai_contract (e : env) (msgs : list message) (model : string)
    (w : world) (tok : string) (r : response) :
  secrets e !! "HF_TOKEN" = Some tok ->
  post e = PostReturns r ->
  let sent :=
    requests_post_ev API_URL
      [("Authorization", "Bearer " +:+ tok);
       ("Content-Type", "application/json")]
      {| p_messages := msgs; p_model := model; p_max_tokens := 500;
         p_temperature := Qmake 7 10; p_stream := false |} in
  let res := query_ai e msgs model w in
  session_state res.2 = session_state w /\
  posts (rendered res.2) = posts (rendered w) ++ [sent] /\
  (if http_failure r then
     res.1 = Returned JNull /\
     rendered res.2 =
       rendered w ++
       [sent; st_error_ev ("API request failed: " +:+ http_error_msg r)]
   else
     match json_body r with
     | inr body => res.1 = Returned body /\ rendered res.2 = rendered w ++ [sent]
     | inl x =>
         if isinstance_RequestException x then
           res.1 = Returned JNull /\
           rendered res.2 =
             rendered w ++
             [sent; st_error_ev ("API request failed: " +:+ str x)]
         else if isinstance_JSONDecodeError x then
           res.1 = Returned JNull /\
           rendered res.2 =
             rendered w ++
             [sent; st_error_ev ("Failed to parse API response: " +:+ str x)]
         else res.1 = Raised x
     end).
Proof.
  intros Htok Hpost sent res. subst res. rewrite query_ai_eq.
  unfold query_result, call_events, api_answer_of, headers_of, payload_of.
  rewrite Htok, Hpost. cbn [fst snd default from_option].
  fold sent. split.
  { by destruct (http_failure r), (json_body r) as [[]|]. }
  split.
  { unfold after. cbn [rendered]. rewrite posts_app. f_equal.
    destruct (http_failure r); [done|].
    destruct (json_body r) as [x|body]; [|done]. by destruct x. }
  destruct (http_failure r); [done|].
  destruct (json_body r) as [x|body]; [|done]. by destruct x.
Qed.

(** C5, at three concrete responses: a 503, a body that is no JSON, and a
    body that parses. *)
Lemma query_ai_contract_witness :
  (query_ai (env_of unavailable_response no_action)
     [user_message "Should I move?"] default_model
     (World new_session [])).1 = Returned JNull /\
  (query_ai (env_of not_json_response no_action)
     [user_message "Should I move?"] default_model
     (World new_session [])).1 = Returned JNull /\
  (query_ai (env_of (ok_response (reply_body (JStr "Tell me more.")))
                    no_action)
     [user_message "Should I move?"] default_model
     (World new_session [])).1 = Returned (reply_body (JStr "Tell me more.")).
Proof.
  split; [|split].
  - exact (proj1 (proj2 (proj2
      (query_ai_contract (env_of unavailable_response no_action)
         [user_message "Should I move?"] default_model (World new_session [])
         "hf_example" unavailable_response eq_refl eq_refl)))).
  - exact (proj1 (proj2 (proj2
      (query_ai_contract (env_of not_json_response no_action)
         [user_message "Should I move?"] default_model (World new_session [])
         "hf_example" not_json_response eq_refl eq_refl)))).
  - exact (proj1 (proj2 (proj2
      (query_ai_contract
         (env_of (ok_response (reply_body (JStr "Tell me more."))) no_action)
         [user_message "Should I move?"] default_model (World new_session [])
         "hf_example" (ok_response (reply_body (JStr "Tell me more.")))
         eq_refl eq_refl)))).
Defined.

(** ** Start New Decision *)

Lemma run_start (e : env) (s : session) :
  button_start_new_decision (ui e) = true ->
  run e s = start_summary e (context_of e s) (Some (context_of e s)) intro_events.
Proof. intros H. rewrite run_eq. unfold run_summary. by rewrite H. Qed.

Lemma call_outcome_no_reply (e : env) :
  api_reply e = None -> forall c, call_outcome_of e <> CallReply c.
Proof.
  intros Hnone c Hc. apply call_outcome_api_reply in Hc. congruence.
Qed.

(** C2.  In the run of a Start New Decision click the history is cleared,
    and it is left empty unless the context is not empty and the API call
    succeeds; then it holds exactly the user message
    [I need help deciding: {context}] and the assistant's reply, in this
    order.  [current_decision] is the context. *)
Theorem start_new_decision_history (e : env) (s : session) :
  button_start_new_decision (ui e) = true ->
  messages (run_session e s) =
    Some (match context_of e s, api_reply e with
          | String a c, Some reply =>
              [{| role := "user";
                  content := JStr ("I need help deciding: " +:+ String a c) |};
               {| role := "assistant"; content := reply |}]
          | _, _ => []
          end) /\
  current_decision (run_session e s) = Some (context_of e s).
Proof.
  intros Hstart. unfold run_session.
  rewrite (run_start e s Hstart). unfold start_summary.
  destruct (context_of e s) as [|a c]; cbn; [done|].
  split; [|done]. f_equal.
  destruct (call_outcome_of e) as [reply| |x] eqn:Hcall.
  - apply call_outcome_api_reply in Hcall. by rewrite Hcall.
  - destruct (api_reply e) as [reply|] eqn:Hreply; [|done].
    apply call_outcome_api_reply in Hreply. congruence.
  - destruct (api_reply e) as [reply|] eqn:Hreply; [|done].
    apply call_outcome_api_reply in Hreply. congruence.
Qed.

(** C2, at a click with the context [a new job] and a reply. *)
Lemma start_new_decision_history_witness :
  let e := env_of (ok_response (reply_body (JStr "What draws you to it?")))
                  (start_click "a new job") in
  button_start_new_decision (ui e) = true /\
  messages (run_session e new_session) =
    Some [{| role := "user";
             content := JStr "I need help deciding: a new job" |};
          {| role := "assistant";
             content := JStr "What draws you to it?" |}].
Proof.
  intros e. split; [reflexivity|].
  exact (proj1 (start_new_decision_history e new_session eq_refl)).
Defined.

(** ** Submitting a chat message *)

Lemma run_submit (e : env) (s : session) (a : Ascii.ascii) (p : string) :
  button_start_new_decision (ui e) = false ->
  button_clear_conversation (ui e) = false ->
  chat_input (ui e) = Some (String a p) ->
  run e s =
  then_footer
    (submit_summary e (String a p) (history_of s) (context_of e s)
       (Some (default EmptyString (current_decision s)))
       (intro_events ++ tips_events ++ display_events (history_of s))).
Proof.
  intros Hs Hc Hp. rewrite run_eq. unfold run_summary. by rewrite Hs, Hc, Hp.
Qed.

Lemma submit_success (e : env) (s : session) :
  is_submit (ui e) && api_succeeds e = true ->
  exists (p : string) (c : json),
    chat_input (ui e) = Some p /\ api_reply e = Some c /\
    messages (run_session e s) =
      Some (history_of s ++ [user_message p; assistant_message c]).
Proof.
  unfold is_submit, api_succeeds. intros H.
  apply andb_true_iff in H as [H Hok].
  apply andb_true_iff in H as [H Hp].
  apply andb_true_iff in H as [Hs Hc].
  apply negb_true_iff in Hs, Hc.
  destruct (chat_input (ui e)) as [[|a p]|] eqn:Hchat; try discriminate.
  destruct (api_reply e) as [c|] eqn:Hreply; [|discriminate].
  exists (String a p), c. split; [done|]. split; [done|].
  unfold run_session. rewrite (run_submit e s a p Hs Hc Hchat).
  unfold submit_summary.
  apply call_outcome_api_reply in Hreply. rewrite Hreply. cbn.
  by rewrite <- app_assoc.
Qed.

Lemma runs_snoc (es : list env) (e : env) (s : session) :
  runs (es ++ [e]) s = run_session e (runs es s).
Proof. revert s. induction es as [|e' es IH]; intros s; cbn; [done|]. apply IH. Qed.

Lemma strictly_alternating_nil : strictly_alternating [].
Proof. intros i m H. by rewrite lookup_nil in H. Qed.

Lemma strictly_alternating_snoc2 (h : list message) (p : string) (c : json) :
  Nat.even (length h) = true -> strictly_alternating h ->
  strictly_alternating (h ++ [user_message p; assistant_message c]).
Proof.
  intros Heven Halt i m Hi.
  destruct (decide (i < length h)%nat) as [Hlt|Hge].
  - rewrite lookup_app_l in Hi by done. by apply Halt.
  - rewrite lookup_app_r in Hi by lia.
    assert (Hsplit : i = (length h + (i - length h))%nat) by lia.
    rewrite Hsplit, Nat.even_add, Heven.
    destruct (i - length h)%nat as [|[|k]]; cbn in Hi.
    + by inversion Hi.
    + by inversion Hi.
    + discriminate.
Qed.

Lemma successful_submits_history (es : list env) :
  Forall (fun e => is_submit (ui e) && api_succeeds e = true) es ->
  length (history_of (runs es new_session)) = (2 * length es)%nat /\
  strictly_alternating (history_of (runs es new_session)).
Proof.
  induction es as [|e es IH] using rev_ind; intros Hall.
  - split; [done|]. apply strictly_alternating_nil.
  - apply Forall_app in Hall as [Hes He]. apply Forall_cons in He as [He _].
    destruct (IH Hes) as [Hlen Halt].
    destruct (submit_success e (runs es new_session) He)
      as (p & c & _ & _ & Hrun).
    rewrite runs_snoc.
    assert (Hnew : history_of (run_session e (runs es new_session)) =
                   history_of (runs es new_session)
                   ++ [user_message p; assistant_message c]).
    { unfold history_of at 1. by rewrite Hrun. }
    rewrite Hnew. split.
    + rewrite !length_app, Hlen. simpl length. lia.
    + apply strictly_alternating_snoc2; [|done].
      rewrite Hlen.
      replace (2 * length es)%nat with (0 + 2 * length es)%nat by lia.
      by rewrite Nat.even_add_mul_2.
Qed.

(** C3.  After any sequence [es] of successful submissions from a fresh
    session the history has two messages per call and alternates, user
    first; one more successful submission appends the user message and then
    the assistant reply, so the length grows by exactly 2 and the history
    still alternates. *)
Theorem successful_submits_alternate (es : list env) (e : env) :
  Forall (fun e => is_submit (ui e) && api_succeeds e = true) es ->
  is_submit (ui e) && api_succeeds e = true ->
  let before := history_of (runs es new_session) in
  let after := history_of (runs (es ++ [e]) new_session) in
  length before = (2 * length es)%nat /\
  strictly_alternating before /\
  (exists (p : string) (c : json),
     chat_input (ui e) = Some p /\ api_reply e = Some c /\
     after = before ++ [user_message p; assistant_message c]) /\
  length after = (length before + 2)%nat /\
  strictly_alternating after.
Proof.
  intros Hes He before after.
  destruct (successful_submits_history es Hes) as [Hlen Halt].
  assert (Hall : Forall (fun e => is_submit (ui e) && api_succeeds e = true)
                   (es ++ [e])).
  { apply Forall_app. split; [done|]. by apply Forall_cons. }
  destruct (successful_submits_history _ Hall) as [Hlen' Halt'].
  destruct (submit_success e (runs es new_session) He)
    as (p & c & Hp & Hc & Hrun).
  subst before after.
  split; [done|]. split; [done|]. split; [|split; [|done]].
  - exists p, c. split; [done|]. split; [done|].
    rewrite runs_snoc. unfold history_of at 1. by rewrite Hrun.
  - rewrite Hlen, Hlen', length_app. cbn. lia.
Qed.

(** C3, at two submissions in a row. *)
Lemma successful_submits_alternate_witness :
  Forall (fun e => is_submit (ui e) && api_succeeds e = true) [first_submit] /\
  is_submit (ui second_submit) && api_succeeds second_submit = true /\
  length (history_of (runs ([first_submit] ++ [second_submit]) new_session)) =
    (length (history_of (runs [first_submit] new_session)) + 2)%nat /\
  strictly_alternating
    (history_of (runs ([first_submit] ++ [second_submit]) new_session)).
Proof.
  assert (H1 : Forall (fun e => is_submit (ui e) && api_succeeds e = true)
                 [first_submit]) by (repeat constructor).
  assert (H2 : is_submit (ui second_submit) && api_succeeds second_submit = true)
    by reflexivity.
  split; [exact H1|]. split; [exact H2|].
  exact (proj2 (proj2 (proj2
           (successful_submits_alternate [first_submit] second_submit H1 H2)))).
Defined.

(** C4.  When the API call of a submission does not succeed, the history is
    the one before the call followed by the user message with the submitted
    text: it ends in that user message, no assistant message follows it, and
    every earlier entry is where it was. *)
Theorem failed_submit_keeps_user_message (e : env) (s : session)
    (prompt : string) :
  button_start_new_decision (ui e) = false ->
  button_clear_conversation (ui e) = false ->
  chat_input (ui e) = Some prompt ->
  prompt <> EmptyString ->
  api_reply e = None ->
  messages (run_session e s) =
    Some (history_of s ++ [{| role := "user"; content := JStr prompt |}]) /\
  last (history_of (run_session e s)) =
    Some {| role := "user"; content := JStr prompt |} /\
  (forall (i : nat) (m : message), history_of s !! i = Some m ->
     history_of (run_session e s) !! i = Some m).
Proof.
  intros Hs Hc Hp Hne Hfail. destruct prompt as [|a p]; [done|]. clear Hne.
  change {| role := "user"; content := JStr (String a p) |}
    with (user_message (String a p)).
  assert (Hm : messages (run_session e s) =
               Some (history_of s ++ [user_message (String a p)])).
  { unfold run_session. rewrite (run_submit e s a p Hs Hc Hp).
    unfold submit_summary.
    pose proof (call_outcome_no_reply e Hfail) as Hno.
    destruct (call_outcome_of e) as [c| |x]; [by destruct (Hno c)|done|done]. }
  split; [done|]. unfold history_of at 1 3. rewrite Hm. cbn. split.
  - apply last_snoc.
  - intros i m Hi. by apply lookup_app_l_Some.
Qed.

(** C4, at a submission answered by a 503. *)
Lemma failed_submit_keeps_user_message_witness :
  api_reply failed_submit = None /\
  messages (run_session failed_submit new_session) =
    Some [{| role := "user"; content := JStr "Should I move?" |}].
Proof.
  split; [reflexivity|].
  apply (failed_submit_keeps_user_message failed_submit new_session
           "Should I move?"); [reflexivity..| discriminate | reflexivity].
Defined.

(** C1.  A response of status 200 whose body is [{"choices": []}] makes the
    run of a submission, and of a Start New Decision click, end in an
    uncaught [IndexError]: no reply is stored and no error is shown.  A
    choice without [message] ends the run in a [KeyError] the same way. *)
Theorem unexpected_shape_escapes :
  let chat := env_of (ok_response empty_choices_body) (chat_submit "Should I move?") in
  let start := env_of (ok_response empty_choices_body) (start_click "a new job") in
  let bare := env_of (ok_response no_message_body) (chat_submit "Should I move?") in
  run_outcome chat new_session = Raised IndexError /\
  errors (run_rendered chat new_session) = [] /\
  messages (run_session chat new_session) =
    Some [user_message "Should I move?"] /\
  run_outcome start new_session = Raised IndexError /\
  errors (run_rendered start new_session) = [] /\
  messages (run_session start new_session) = Some [] /\
  run_outcome bare new_session = Raised (KeyError "message") /\
  errors (run_rendered bare new_session) = [].
Proof. vm_compute. repeat split. Qed.

(** ** The system message *)

Lemma post_shape_call_events (ctx : string) (e : env) (rest : list message)
    (model : string) :
  no_system rest ->
  Forall (post_shape ctx) (call_events e (system_message ctx :: rest) model).
Proof.
  intros Hrest. unfold call_events, missing_token_events.
  assert (Hsent : post_shape ctx
            (requests_post_ev API_URL (headers_of e)
               (payload_of (system_message ctx :: rest) model))).
  { cbn. by exists rest. }
  destruct (api_answer_of e); repeat constructor; done.
Qed.

Lemma post_shape_display_events (ctx : string) (h : list message) :
  Forall (post_shape ctx) (display_events h).
Proof. induction h as [|m h IH]; cbn; repeat constructor; done. Qed.

Lemma no_system_user (text : string) : no_system [user_message text].
Proof. repeat constructor. discriminate. Qed.

Lemma no_system_snoc (h : list message) (m : message) :
  no_system h -> role m <> "system" -> no_system (h ++ [m]).
Proof. intros Hh Hm. apply Forall_app. split; [done|]. by repeat constructor. Qed.

Ltac proj_simpl :=
  unfold history_of;
  cbn [then_footer after fst snd session_state rendered messages
       decision_context current_decision from_option].

(** One run keeps a history free of system messages, and the requests it
    sends carry the system message of its context in front. *)
Lemma system_message_invariant (e : env) (s : session) :
  no_system (history_of s) ->
  no_system (history_of (run_session e s)) /\
  Forall (post_shape (context_of e s)) (run_rendered e s) /\
  decision_context (run_session e s) = Some (context_of e s).
Proof.
  intros Hs. unfold run_session, run_rendered. rewrite run_eq.
  unfold run_summary.
  assert (Hintro : Forall (post_shape (context_of e s)) intro_events)
    by (repeat constructor).
  assert (Htips : Forall (post_shape (context_of e s)) tips_events)
    by (repeat constructor).
  assert (Hstarted : Forall (post_shape (context_of e s)) get_started_events)
    by (repeat constructor).
  assert (Hfooter : Forall (post_shape (context_of e s)) footer_events)
    by (repeat constructor).
  pose proof (post_shape_display_events (context_of e s) (history_of s)) as Hshow.
  destruct (button_start_new_decision (ui e)).
  { unfold start_summary. destruct (context_of e s) as [|a c] eqn:Hctx.
    - proj_simpl. split; [constructor|done].
    - split; [|split; [|done]].
      + destruct (call_outcome_of e); proj_simpl;
          repeat constructor; discriminate.
      + proj_simpl. apply Forall_app. split; [done|]. constructor; [done|].
        apply post_shape_call_events, no_system_user. }
  destruct (button_clear_conversation (ui e)).
  { proj_simpl. split; [constructor|done]. }
  assert (Hshown : Forall (post_shape (context_of e s))
            (intro_events ++ tips_events ++ display_events (history_of s))).
  { rewrite !Forall_app. done. }
  destruct (chat_input (ui e)) as [[|a p]|].
  2: { unfold submit_summary.
       assert (Hh1 : no_system (history_of s ++ [user_message (String a p)])).
       { by apply no_system_snoc. }
       assert (Hcall : Forall (post_shape (context_of e s))
         ((intro_events ++ tips_events ++ display_events (history_of s)) ++
          [st_chat_message_ev "user"; st_markdown_ev (JStr (String a p));
           st_chat_message_ev "assistant"; st_spinner_ev "Thinking..."] ++
          call_events e
            (system_message (context_of e s)
             :: history_of s ++ [user_message (String a p)]) default_model)).
       { apply Forall_app. split; [done|]. apply Forall_app. split.
         - repeat constructor.
         - by apply post_shape_call_events. }
       destruct (call_outcome_of e); proj_simpl.
       - split; [by apply no_system_snoc|]. split; [|done].
         rewrite !Forall_app in *. repeat split; try tauto. repeat constructor.
       - split; [done|]. split; [|done].
         rewrite !Forall_app in *. repeat split; try tauto. repeat constructor.
       - done. }
  all: destruct (history_of s) as [|m h] eqn:Hh;
    [ destruct (example_choice e); proj_simpl;
      (split; [repeat constructor; discriminate|]); (split; [|done]);
      rewrite !Forall_app in *; tauto
    | proj_simpl; (split; [done|]); (split; [|done]);
      rewrite !Forall_app in *; tauto ].
Qed.


(** The histories a session can reach hold no system message. *)
Lemma reachable_no_system (es : list env) :
  no_system (history_of (runs es new_session)).
Proof.
  induction es as [|e es IH] using rev_ind; [constructor|].
  rewrite runs_snoc. by apply system_message_invariant.
Qed.

(** C7.  Whatever the user does in a run and whatever the API answers, a
    history without system message stays without one; every request the
    run sends starts with the system message built from the context of this
    run, followed by messages of other roles; and the context is what the
    session state holds as [decision_context] afterwards.  So no history
    reached from a fresh session, by any sequence of runs, holds a system
    message. *)
Theorem system_message_never_stored (e : env) (s : session) :
  no_system (history_of s) ->
  no_system (history_of (run_session e s)) /\
  Forall (post_shape (context_of e s)) (run_rendered e s) /\
  decision_context (run_session e s) = Some (context_of e s) /\
  (forall es : list env, no_system (history_of (runs es new_session))).
Proof.
  intros Hs. destruct (system_message_invariant e s Hs) as (H1 & H2 & H3).
  split; [done|]. split; [done|]. split; [done|]. apply reachable_no_system.
Qed.

(** C7, at a first submission in a fresh session. *)
Lemma system_message_never_stored_witness :
  no_system (history_of new_session) /\
  no_system (history_of (run_session first_submit new_session)) /\
  Forall (post_shape EmptyString) (run_rendered first_submit new_session).
Proof.
  assert (H : no_system (history_of new_session)) by constructor.
  split; [exact H|].
  pose proof (system_message_never_stored first_submit new_session H) as Hthm.
  split; [exact (proj1 Hthm)|exact (proj1 (proj2 Hthm))].
Defined.

(** ** Clear Conversation and the example buttons *)

Lemma run_clear (e : env) (s : session) :
  button_start_new_decision (ui e) = false ->
  button_clear_conversation (ui e) = true ->
  run e s =
  (Raised RerunException,
   World (Session (Some []) (Some (context_of e s))
            (Some (default EmptyString (current_decision s))))
         intro_events).
Proof. intros Hs Hc. rewrite run_eq. unfold run_summary. by rewrite Hs, Hc. Qed.

(** C8.  The run of a Clear Conversation click leaves an empty history,
    whatever the session held; a second click leaves it empty again, and
    with the same inputs leaves the whole session state as the first click
    left it.  No request is sent. *)
Theorem clear_conversation_idempotent (e e' : env) (s : session) :
  button_start_new_decision (ui e) = false ->
  button_clear_conversation (ui e) = true ->
  button_start_new_decision (ui e') = false ->
  button_clear_conversation (ui e') = true ->
  messages (run_session e s) = Some [] /\
  messages (run_session e' (run_session e s)) = Some [] /\
  run_session e (run_session e s) = run_session e s /\
  posts (run_rendered e s) = [].
Proof.
  intros Hs Hc Hs' Hc'. unfold run_session, run_rendered.
  rewrite (run_clear e' _ Hs' Hc'), !(run_clear e _ Hs Hc).
  cbn [snd session_state rendered messages].
  split; [done|]. split; [done|]. split; [|done].
  unfold context_of. cbn [decision_context current_decision from_option].
  by destruct (text_area (ui e)).
Qed.

(** C8, at two clicks after a conversation. *)
Lemma clear_conversation_idempotent_witness :
  messages (run_session (env_of unavailable_response clear_click)
              (run_session first_submit new_session)) = Some [] /\
  messages (run_session (env_of unavailable_response clear_click)
              (run_session (env_of unavailable_response clear_click)
                 (run_session first_submit new_session))) = Some [].
Proof.
  pose proof (clear_conversation_idempotent
                (env_of unavailable_response clear_click)
                (env_of unavailable_response clear_click)
                (run_session first_submit new_session)
                eq_refl eq_refl eq_refl eq_refl) as Hthm.
  split; [exact (proj1 Hthm)|exact (proj1 (proj2 Hthm))].
Defined.

(** C9.  The example buttons are there while the history is empty.  The run
    of a click on Moving Decision appends one user message, whose content is
    the fixed scenario text, to the history, sends no request, and ends in a
    rerun. *)
Theorem moving_example_click (e : env) (s : session) :
  button_start_new_decision (ui e) = false ->
  button_clear_conversation (ui e) = false ->
  chat_input (ui e) = None ->
  button_moving_decision (ui e) = true ->
  history_of s = [] ->
  messages (run_session e s) =
    Some (history_of s ++
          [{| role := "user";
              content := JStr "I'm trying to decide whether to move to a new city for a job opportunity. Can you help me think through this decision?" |}]) /\
  moving_example =
    "I'm trying to decide whether to move to a new city for a job opportunity. Can you help me think through this decision?" /\
  posts (run_rendered e s) = [] /\
  run_outcome e s = Raised RerunException.
Proof.
  intros Hs Hc Hp Hm Hh. unfold run_session, run_rendered, run_outcome.
  rewrite run_eq. unfold run_summary, example_choice.
  rewrite Hs, Hc, Hp, Hm, Hh. cbn [fst snd session_state rendered messages].
  split; [done|]. split; [done|]. split; [|done].
  reflexivity.
Qed.

(** C9, at a click in a fresh session. *)
Lemma moving_example_click_witness :
  history_of new_session = [] /\
  messages (run_session (env_of unavailable_response moving_click) new_session) =
    Some [{| role := "user";
             content := JStr "I'm trying to decide whether to move to a new city for a job opportunity. Can you help me think through this decision?" |}] /\
  posts (run_rendered (env_of unavailable_response moving_click) new_session) = [].
Proof.
  split; [reflexivity|].
  pose proof (moving_example_click (env_of unavailable_response moving_click)
                new_session eq_refl eq_refl eq_refl eq_refl eq_refl) as Hthm.
  split; [exact (proj1 Hthm)|exact (proj1 (proj2 (proj2 Hthm)))].
Defined.

(** ** Further properties of the client and of a run *)

(** X1.  When there is a secrets file and it has no [HF_TOKEN],
    [get_headers] shows the error and the instructions and stops the run;
    inside [query_ai] the stop is caught by neither [except] clause, so
    [query_ai] raises it too, and no request is sent. *)
Theorem query_ai_without_token (e : env) (msgs : list message)
    (model : string) (w : world) (entries : gmap string string) :
  secrets e = SecretsFile entries ->
  entries !! "HF_TOKEN" = None ->
  let shown :=
    [st_error_ev "HF_TOKEN not found in secrets.toml. Please add it to your Streamlit secrets.";
     st_info_ev ("Add the following to your .streamlit/secrets.toml file:"
                 +:+ LF +:+ LF +:+ "```" +:+ LF +:+ "HF_TOKEN = "
                 +:+ DQUOTE +:+ "your_token_here" +:+ DQUOTE +:+ LF
                 +:+ "```")] in
  get_headers e w =
    (Raised StopException, World (session_state w) (rendered w ++ shown)) /\
  query_ai e msgs model w =
    (Raised StopException, World (session_state w) (rendered w ++ shown)) /\
  posts (rendered (query_ai e msgs model w).2) = posts (rendered w).
Proof.
  intros Hstore Htok shown.
  assert (Hlookup : secrets e !! "HF_TOKEN" = None).
  { rewrite Hstore. exact Htok. }
  assert (Hquery : query_ai e msgs model w =
    (Raised StopException, World (session_state w) (rendered w ++ shown))).
  { rewrite query_ai_eq. unfold query_result, call_events, api_answer_of.
    by rewrite Hlookup, Hstore. }
  split; [|split; [exact Hquery|]].
  - unfold get_headers, try_except. rewrite Hstore, Htok. msimpl.
    by rewrite <- app_assoc.
  - rewrite Hquery. cbn [snd rendered].
    rewrite posts_app. cbn. by rewrite app_nil_r.
Qed.

(** X1, at a secrets file with no entries. *)
Lemma query_ai_without_token_witness :
  (query_ai (no_token_env no_action)
     [{| role := "user"; content := JStr "Should I move?" |}]
     default_model (World new_session [])).1 = Raised StopException.
Proof.
  pose proof (query_ai_without_token (no_token_env no_action)
                [{| role := "user"; content := JStr "Should I move?" |}]
                default_model (World new_session []) ∅ eq_refl eq_refl)
    as Hthm.
  destruct Hthm as (_ & Hquery & _).
  rewrite Hquery. reflexivity.
Defined.

(** X2.  When [requests.post] itself raises a [RequestException] (no
    connection, a timeout), [query_ai] has sent the request, shows
    [API request failed: ...] with the text of the exception, returns [None]
    and leaves the session state alone. *)
Theorem query_ai_transport_error (e : env) (msgs : list message)
    (model : string) (w : world) (tok : string) (x : exc) :
  secrets e !! "HF_TOKEN" = Some tok ->
  post e = PostRaises x ->
  isinstance_RequestException x = true ->
  query_ai e msgs model w =
    (Returned JNull,
     World (session_state w)
       (rendered w ++
        [requests_post_ev API_URL
           [("Authorization", "Bearer " +:+ tok);
            ("Content-Type", "application/json")]
           {| p_messages := msgs; p_model := model; p_max_tokens := 500;
              p_temperature := Qmake 7 10; p_stream := false |};
         st_error_ev ("API request failed: " +:+ str x)])).
Proof.
  intros Htok Hpost Hx. rewrite query_ai_eq.
  unfold query_result, call_events, api_answer_of, classify, headers_of.
  by rewrite Htok, Hpost, Hx.
Qed.

(** X2, at a read timeout. *)
Lemma query_ai_transport_error_witness :
  (query_ai (timeout_env no_action) [user_message "Should I move?"]
     default_model (World new_session [])).1 = Returned JNull.
Proof.
  exact (f_equal fst
    (query_ai_transport_error (timeout_env no_action)
       [user_message "Should I move?"] default_model (World new_session [])
       "hf_example" (RequestException "Read timed out.")
       eq_refl eq_refl eq_refl)).
Defined.

(** X3.  Whatever [query_ai] raises is neither a [RequestException] nor a
    [JSONDecodeError]: those never reach its caller. *)
Theorem query_ai_raises_no_request_error (e : env) (msgs : list message)
    (model : string) (w : world) (x : exc) :
  (query_ai e msgs model w).1 = Raised x ->
  isinstance_RequestException x = false /\
  isinstance_JSONDecodeError x = false.
Proof.
  rewrite query_ai_eq. unfold query_result, api_answer_of, classify.
  cbn [fst].
  assert (Hclass : forall y : exc,
    match (if isinstance_RequestException y
           then Reported ("API request failed: " +:+ str y)
           else if isinstance_JSONDecodeError y
           then Reported ("Failed to parse API response: " +:+ str y)
           else Escaped y) with
    | NoSecrets msg => Raised (StreamlitSecretNotFoundError msg)
    | NoToken => Raised StopException
    | Reported _ => Returned JNull
    | Escaped x0 => Raised x0
    | Answered body => Returned body
    end = Raised x ->
    isinstance_RequestException x = false /\
    isinstance_JSONDecodeError x = false).
  { intros y. destruct (isinstance_RequestException y) eqn:H1; [discriminate|].
    destruct (isinstance_JSONDecodeError y) eqn:H2; [discriminate|].
    intros [= <-]. done. }
  destruct (secrets e !! "HF_TOKEN").
  - destruct (post e) as [y|r]; [apply Hclass|].
    destruct (http_failure r); [apply Hclass|].
    destruct (json_body r) as [y|body]; [apply Hclass|discriminate].
  - destruct (secrets e); intros [= <-]; done.
Qed.

(** X3, at the stop of a run without token. *)
Lemma query_ai_raises_no_request_error_witness :
  isinstance_RequestException StopException = false /\
  isinstance_JSONDecodeError StopException = false.
Proof.
  exact (query_ai_raises_no_request_error (no_token_env no_action)
           [user_message "Should I move?"] default_model
           (World new_session []) StopException eq_refl).
Defined.

Lemma errors_app (l1 l2 : list event) :
  errors (l1 ++ l2) = errors l1 ++ errors l2.
Proof. unfold errors. apply List.filter_app. Qed.

Lemma posts_display_events (h : list message) : posts (display_events h) = [].
Proof. induction h as [|m h IH]; [done|]. exact IH. Qed.

Lemma errors_display_events (h : list message) : errors (display_events h) = [].
Proof. induction h as [|m h IH]; [done|]. exact IH. Qed.

Lemma posts_call_events (e : env) (msgs : list message) (model : string) :
  posts (call_events e msgs model) =
  match secrets e !! "HF_TOKEN" with
  | Some tok =>
      [requests_post_ev API_URL
         [("Authorization", "Bearer " +:+ tok);
          ("Content-Type", "application/json")]
         {| p_messages := msgs; p_model := model; p_max_tokens := 500;
            p_temperature := Qmake 7 10; p_stream := false |}]
  | None => []
  end.
Proof.
  unfold call_events, api_answer_of, headers_of, classify.
  destruct (secrets e !! "HF_TOKEN") as [tok|]; [|by destruct (secrets e)].
  destruct (post e) as [x|r].
  - by destruct x.
  - destruct (http_failure r); [done|].
    destruct (json_body r) as [x|body]; [|done]. by destruct x.
Qed.

(** The requests of a run are those of the one call it makes, if any. *)
Lemma run_posts (e : env) (s : session) :
  posts (run_rendered e s) =
  match run_call e s with
  | Some msgs => posts (call_events e msgs default_model)
  | None => []
  end.
Proof.
  unfold run_rendered, run_call. rewrite run_eq. unfold run_summary.
  destruct (button_start_new_decision (ui e)).
  { unfold start_summary. destruct (context_of e s) as [|a c]; [done|].
    cbn [snd rendered]. by rewrite posts_app. }
  destruct (button_clear_conversation (ui e)); [done|].
  destruct (chat_input (ui e)) as [[|a p]|].
  2: { unfold submit_summary, then_footer.
       destruct (call_outcome_of e); cbn [snd rendered after];
         rewrite !posts_app, posts_display_events;
         set (sent := posts (call_events _ _ _));
         cbn; by rewrite ?app_nil_r. }
  all: destruct (history_of s) as [|m h];
    [ destruct (example_choice e); cbn [snd rendered];
      rewrite !posts_app; reflexivity
    | cbn [snd rendered]; rewrite !posts_app, posts_display_events;
      reflexivity ].
Qed.

Lemma request_form_posts (e : env) (log : list event) :
  Forall (request_form e) (posts log) -> Forall (request_form e) log.
Proof.
  induction log as [|ev log IH]; [done|]. cbn.
  destruct ev; cbn; intros H; try (constructor; [exact I|by apply IH]).
  apply Forall_cons in H as [H1 H2]. constructor; [done|by apply IH].
Qed.

(** X6.  One run sends at most one request, and every request it sends goes
    to [API_URL] with the token of the secrets as bearer, the JSON content
    type, the default model, [max_tokens] 500, [temperature] 0.7 and
    [stream] false. *)
Theorem run_sends_at_most_one_request (e : env) (s : session) :
  (length (posts (run_rendered e s)) <= 1)%nat /\
  Forall (request_form e) (run_rendered e s).
Proof.
  pose proof (run_posts e s) as Hposts.
  assert (Hcall : forall msgs : list message,
    (length (posts (call_events e msgs default_model)) <= 1)%nat /\
    Forall (request_form e) (posts (call_events e msgs default_model))).
  { intros msgs. rewrite posts_call_events.
    destruct (secrets e !! "HF_TOKEN") as [tok|] eqn:Htok; cbn; [|split; [lia|done]].
    split; [lia|]. constructor; [|done]. cbn.
    split; [done|]. split; [by exists tok|]. repeat split. }
  split.
  - rewrite Hposts. destruct (run_call e s) as [msgs|]; [apply Hcall|cbn; lia].
  - apply request_form_posts. rewrite Hposts.
    destruct (run_call e s) as [msgs|]; [apply Hcall|done].
Qed.

(** X7.  A run sends no request unless Start New Decision is clicked with a
    context that is not empty, or a chat message is submitted while neither
    Start nor Clear is clicked. *)
Theorem run_without_call_sends_nothing (e : env) (s : session) :
  button_start_new_decision (ui e) = false \/ context_of e s = EmptyString ->
  button_start_new_decision (ui e) = true \/
    button_clear_conversation (ui e) = true \/ has_prompt (ui e) = false ->
  posts (run_rendered e s) = [].
Proof.
  intros Hstart Hrest. rewrite run_posts. unfold run_call, has_prompt in *.
  destruct (button_start_new_decision (ui e)).
  - destruct Hstart as [?|Hctx]; [done|]. by rewrite Hctx.
  - destruct (button_clear_conversation (ui e)); [done|].
    destruct Hrest as [?|[?|Hp]]; try done.
    by destruct (chat_input (ui e)) as [[|a p]|].
Qed.

(** X7, at a Clear click after a conversation. *)
Lemma run_without_call_sends_nothing_witness :
  posts (run_rendered (env_of unavailable_response clear_click)
           (run_session first_submit new_session)) = [].
Proof.
  apply run_without_call_sends_nothing.
  - left. reflexivity.
  - right. left. reflexivity.
Defined.

(** X8.  The request of a submission carries the system message of the
    current context, then the whole stored history, then the message just
    submitted. *)
Theorem submit_sends_whole_history (e : env) (s : session) (prompt tok : string) :
  button_start_new_decision (ui e) = false ->
  button_clear_conversation (ui e) = false ->
  chat_input (ui e) = Some prompt ->
  prompt <> EmptyString ->
  secrets e !! "HF_TOKEN" = Some tok ->
  posts (run_rendered e s) =
  [requests_post_ev API_URL
     [("Authorization", "Bearer " +:+ tok);
      ("Content-Type", "application/json")]
     {| p_messages :=
          {| role := "system";
             content := JStr (create_system_prompt (context_of e s)) |}
          :: history_of s ++ [{| role := "user"; content := JStr prompt |}];
        p_model := default_model; p_max_tokens := 500;
        p_temperature := Qmake 7 10; p_stream := false |}].
Proof.
  intros Hs Hc Hp Hne Htok. rewrite run_posts. unfold run_call.
  rewrite Hs, Hc, Hp. destruct prompt as [|a p]; [done|].
  by rewrite posts_call_events, Htok.
Qed.

(** X8, at the second of two submissions. *)
Lemma submit_sends_whole_history_witness :
  posts (run_rendered second_submit (run_session first_submit new_session)) =
  [requests_post_ev API_URL
     [("Authorization", "Bearer hf_example");
      ("Content-Type", "application/json")]
     {| p_messages :=
          [{| role := "system"; content := JStr base_prompt |};
           {| role := "user"; content := JStr "Should I move?" |};
           {| role := "assistant";
              content := JStr "What matters most to you?" |};
           {| role := "user"; content := JStr "The salary." |}];
        p_model := default_model; p_max_tokens := 500;
        p_temperature := Qmake 7 10; p_stream := false |}].
Proof.
  apply (submit_sends_whole_history second_submit
           (run_session first_submit new_session) "The salary." "hf_example");
    [reflexivity | reflexivity | reflexivity | discriminate | reflexivity].
Defined.

(** X9.  The request of Start New Decision carries the system message of the
    context and the opening user message, and nothing of the history stored
    before the click. *)
Theorem start_sends_fresh_conversation (e : env) (s : session) (tok : string) :
  button_start_new_decision (ui e) = true ->
  context_of e s <> EmptyString ->
  secrets e !! "HF_TOKEN" = Some tok ->
  posts (run_rendered e s) =
  [requests_post_ev API_URL
     [("Authorization", "Bearer " +:+ tok);
      ("Content-Type", "application/json")]
     {| p_messages :=
          [{| role := "system";
              content := JStr (create_system_prompt (context_of e s)) |};
           {| role := "user";
              content := JStr ("I need help deciding: " +:+ context_of e s) |}];
        p_model := default_model; p_max_tokens := 500;
        p_temperature := Qmake 7 10; p_stream := false |}].
Proof.
  intros Hs Hne Htok. rewrite run_posts. unfold run_call. rewrite Hs.
  destruct (context_of e s) as [|a c]; [done|].
  by rewrite posts_call_events, Htok.
Qed.

(** X9, at a Start click after a conversation. *)
Lemma start_sends_fresh_conversation_witness :
  posts (run_rendered
           (env_of (ok_response (reply_body (JStr "What draws you to it?")))
                   (start_click "a new job"))
           (run_session first_submit new_session)) =
  [requests_post_ev API_URL
     [("Authorization", "Bearer hf_example");
      ("Content-Type", "application/json")]
     {| p_messages :=
          [{| role := "system";
              content := JStr (create_system_prompt "a new job") |};
           {| role := "user";
              content := JStr "I need help deciding: a new job" |}];
        p_model := default_model; p_max_tokens := 500;
        p_temperature := Qmake 7 10; p_stream := false |}].
Proof.
  apply (start_sends_fresh_conversation
           (env_of (ok_response (reply_body (JStr "What draws you to it?")))
                   (start_click "a new job"))
           (run_session first_submit new_session) "hf_example");
    [reflexivity | discriminate | reflexivity].
Defined.

(** X5.  The subscript chain of lines 116 and 169 returns [c] exactly on a
    body that is an object whose [choices] is a list starting with an object
    whose [message] is an object with [content] [c]; on every such body the
    guard of lines 115 and 168 passes. *)
Theorem reply_extracted_iff_well_shaped (body c : json) :
  (reply_content body = Returned c <-> well_shaped body = Some c) /\
  (well_shaped body = Some c -> has_choices body = Returned true).
Proof.
  assert (Hiff : reply_content body = Returned c <-> well_shaped body = Some c).
  { unfold reply_content, well_shaped.
    destruct body as [| b | n | q | s | l | o]; cbn;
      try (split; discriminate).
    destruct (o !! "choices") as [ch|]; cbn; [|split; discriminate].
    destruct ch as [| b | n | q | s | l | o']; cbn; try (split; discriminate).
    - destruct (codepoints s !! 0%nat); cbn; split; discriminate.
    - destruct l as [|x l]; cbn; [split; discriminate|].
      destruct x as [| b | n | q | s | l' | ch0]; cbn;
        try (split; discriminate).
      destruct (ch0 !! "message") as [m|]; cbn; [|split; discriminate].
      destruct m as [| b | n | q | s | l' | m0]; cbn;
        try (split; discriminate).
      destruct (m0 !! "content"); cbn; split; congruence. }
  split; [exact Hiff|]. intros Hshape.
  pose proof (proj2 (reply_outcome_well_shaped body c) Hshape) as Hout.
  unfold reply_outcome_of in Hout.
  destruct (has_choices body) as [[|]|x]; [done|discriminate|discriminate].
Qed.

Lemma submit_run (e : env) (s : session) (prompt : string) :
  button_start_new_decision (ui e) = false ->
  button_clear_conversation (ui e) = false ->
  chat_input (ui e) = Some prompt ->
  prompt <> EmptyString ->
  run e s =
  then_footer
    (submit_summary e prompt (history_of s) (context_of e s)
       (Some (default EmptyString (current_decision s)))
       (intro_events ++ tips_events ++ display_events (history_of s))).
Proof.
  intros Hs Hc Hp Hne. destruct prompt as [|a p]; [done|].
  by apply run_submit.
Qed.

(** X10.  When the API answers a submission with a 4xx or 5xx status, the run
    shows two errors, the one of [query_ai] and then the handler's own, and
    still returns normally, down to the footer. *)
Theorem failed_status_is_reported (e : env) (s : session)
    (prompt tok : string) (r : response) :
  button_start_new_decision (ui e) = false ->
  button_clear_conversation (ui e) = false ->
  chat_input (ui e) = Some prompt ->
  prompt <> EmptyString ->
  secrets e !! "HF_TOKEN" = Some tok ->
  post e = PostReturns r ->
  http_failure r = true ->
  run_outcome e s = Returned tt /\
  errors (run_rendered e s) =
    [st_error_ev ("API request failed: " +:+ http_error_msg r);
     st_error_ev "Sorry, I couldn't get a response. Please try again."] /\
  last (run_rendered e s) = Some (st_markdown_ev (JStr footer)).
Proof.
  intros Hs Hc Hp Hne Htok Hpost Hfail.
  unfold run_outcome, run_rendered. rewrite (submit_run e s prompt Hs Hc Hp Hne).
  unfold submit_summary, call_outcome_of, query_result, call_events,
    api_answer_of, classify.
  rewrite Htok, Hpost, Hfail. cbn [isinstance_RequestException handler_outcome
    reply_outcome_of has_choices truthy then_footer fst snd rendered after].
  split; [done|]. split.
  - rewrite !errors_app, errors_display_events. reflexivity.
  - change footer_events
      with ([st_markdown_ev (JStr "---")] ++ [st_markdown_ev (JStr footer)]).
    rewrite !app_assoc. apply last_snoc.
Qed.

(** X10, at a submission answered by a 503. *)
Lemma failed_status_is_reported_witness :
  run_outcome failed_submit new_session = Returned tt /\
  errors (run_rendered failed_submit new_session) =
    [st_error_ev "API request failed: 503 Server Error: Service Unavailable";
     st_error_ev "Sorry, I couldn't get a response. Please try again."].
Proof.
  pose proof (failed_status_is_reported failed_submit new_session
                "Should I move?" "hf_example" unavailable_response
                eq_refl eq_refl eq_refl ltac:(discriminate) eq_refl eq_refl
                eq_refl) as Hthm.
  split; [exact (proj1 Hthm)|exact (proj1 (proj2 Hthm))].
Defined.

Lemma answered (e : env) (tok : string) (r : response) (body : json) :
  secrets e !! "HF_TOKEN" = Some tok ->
  post e = PostReturns r ->
  http_failure r = false ->
  json_body r = inr body ->
  api_answer_of e = Answered body.
Proof.
  intros Htok Hpost Hfail Hbody. unfold api_answer_of.
  by rewrite Htok, Hpost, Hfail, Hbody.
Qed.

(** X11.  When the body of the response fails the guard of line 168 (it is
    falsy, or a container without [choices]), a submission shows the
    handler's error, stores no reply after the user message, and returns
    normally. *)
Theorem response_without_choices_is_reported (e : env) (s : session)
    (prompt tok : string) (r : response) (body : json) :
  button_start_new_decision (ui e) = false ->
  button_clear_conversation (ui e) = false ->
  chat_input (ui e) = Some prompt ->
  prompt <> EmptyString ->
  secrets e !! "HF_TOKEN" = Some tok ->
  post e = PostReturns r ->
  http_failure r = false ->
  json_body r = inr body ->
  has_choices body = Returned false ->
  run_outcome e s = Returned tt /\
  errors (run_rendered e s) =
    [st_error_ev "Sorry, I couldn't get a response. Please try again."] /\
  messages (run_session e s) = Some (history_of s ++ [user_message prompt]).
Proof.
  intros Hs Hc Hp Hne Htok Hpost Hfail Hbody Hguard.
  unfold run_outcome, run_rendered, run_session.
  rewrite (submit_run e s prompt Hs Hc Hp Hne).
  unfold submit_summary, call_outcome_of, query_result, call_events.
  rewrite (answered e tok r body Htok Hpost Hfail Hbody).
  unfold handler_outcome, reply_outcome_of. rewrite Hguard.
  cbn [then_footer fst snd rendered after session_state messages].
  split; [done|]. split; [|done].
  rewrite !errors_app, errors_display_events. reflexivity.
Qed.

(** X11, at a body that only carries an error text. *)
Lemma response_without_choices_is_reported_witness :
  has_choices no_choices_body = Returned false /\
  run_outcome (env_of (ok_response no_choices_body)
                 (chat_submit "Should I move?")) new_session = Returned tt /\
  errors (run_rendered (env_of (ok_response no_choices_body)
                          (chat_submit "Should I move?")) new_session) =
    [st_error_ev "Sorry, I couldn't get a response. Please try again."].
Proof.
  split; [reflexivity|].
  pose proof (response_without_choices_is_reported
                (env_of (ok_response no_choices_body)
                   (chat_submit "Should I move?")) new_session
                "Should I move?" "hf_example" (ok_response no_choices_body)
                no_choices_body eq_refl eq_refl eq_refl ltac:(discriminate)
                eq_refl eq_refl eq_refl eq_refl eq_refl) as Hthm.
  split; [exact (proj1 Hthm)|exact (proj1 (proj2 Hthm))].
Defined.

(** X12.  When the body of the response is not of the expected shape and the
    guard of line 168 does not turn it down, the run of a submission ends in
    the exception that the guard or the subscript chain raises: no error is
    shown, and the user message stays in the history. *)
Theorem ill_shaped_response_raises (e : env) (s : session)
    (prompt tok : string) (r : response) (body : json) :
  button_start_new_decision (ui e) = false ->
  button_clear_conversation (ui e) = false ->
  chat_input (ui e) = Some prompt ->
  prompt <> EmptyString ->
  secrets e !! "HF_TOKEN" = Some tok ->
  post e = PostReturns r ->
  http_failure r = false ->
  json_body r = inr body ->
  has_choices body <> Returned false ->
  well_shaped body = None ->
  (exists x : exc,
     run_outcome e s = Raised x /\
     (has_choices body = Raised x \/ reply_content body = Raised x)) /\
  errors (run_rendered e s) = [] /\
  messages (run_session e s) = Some (history_of s ++ [user_message prompt]).
Proof.
  intros Hs Hc Hp Hne Htok Hpost Hfail Hbody Hguard Hshape.
  unfold run_outcome, run_rendered, run_session.
  rewrite (submit_run e s prompt Hs Hc Hp Hne).
  unfold submit_summary, call_outcome_of, query_result, call_events.
  rewrite (answered e tok r body Htok Hpost Hfail Hbody).
  unfold handler_outcome.
  pose proof (reply_outcome_well_shaped body) as Hiff.
  unfold reply_outcome_of in *.
  destruct (has_choices body) as [[|]|x]; [|done|].
  - destruct (reply_content body) as [c|x].
    + pose proof (proj1 (Hiff c) eq_refl) as Hwell. congruence.
    + cbn [then_footer fst snd rendered after session_state messages].
      split; [exists x; by split; [|right]|]. split; [|done].
      rewrite !errors_app, errors_display_events. reflexivity.
  - cbn [then_footer fst snd rendered after session_state messages].
    split; [exists x; by split; [|left]|]. split; [|done].
    rewrite !errors_app, errors_display_events. reflexivity.
Qed.

(** X12, at the body [5]. *)
Lemma ill_shaped_response_raises_witness :
  well_shaped (JInt 5) = None /\
  errors (run_rendered (env_of (ok_response (JInt 5))
                          (chat_submit "Should I move?")) new_session) = [].
Proof.
  split; [reflexivity|].
  exact (proj1 (proj2
    (ill_shaped_response_raises
       (env_of (ok_response (JInt 5)) (chat_submit "Should I move?"))
       new_session "Should I move?" "hf_example" (ok_response (JInt 5))
       (JInt 5) eq_refl eq_refl eq_refl ltac:(discriminate) eq_refl eq_refl
       eq_refl eq_refl ltac:(discriminate) eq_refl))).
Defined.

Lemma quiet_fields (u : ui_input) :
  quiet u = true ->
  button_start_new_decision u = false /\
  button_clear_conversation u = false /\
  has_prompt u = false /\
  button_moving_decision u = false /\
  button_education_choice u = false /\
  button_career_change u = false.
Proof.
  unfold quiet. rewrite !andb_true_iff, !negb_true_iff. tauto.
Qed.

Lemma run_quiet (e : env) (s : session) :
  quiet (ui e) = true ->
  exists shown : list event,
    run e s =
    (Returned tt,
     World (Session (Some (history_of s)) (Some (context_of e s))
              (Some (default EmptyString (current_decision s))))
           shown) /\
    posts shown = [].
Proof.
  intros Hq. apply quiet_fields in Hq as (Hs & Hc & Hp & Hm & He & Hk).
  rewrite run_eq. unfold run_summary, example_choice, has_prompt in *.
  rewrite Hs, Hc, Hm, He, Hk.
  destruct (chat_input (ui e)) as [[|a p]|]; [|discriminate|].
  all: destruct (history_of s) as [|m h]; eexists; (split; [reflexivity|]);
    rewrite !posts_app, ?posts_display_events; reflexivity.
Qed.

Lemma run_session_shape (e : env) (s : session) :
  exists (h : list message) (cd : string),
    run_session e s = Session (Some h) (Some (context_of e s)) (Some cd).
Proof.
  unfold run_session. rewrite run_eq. unfold run_summary.
  destruct (button_start_new_decision (ui e)).
  { unfold start_summary. destruct (context_of e s); eauto. }
  destruct (button_clear_conversation (ui e)); [eauto|].
  destruct (chat_input (ui e)) as [[|a p]|].
  2: { unfold submit_summary, then_footer. destruct (call_outcome_of e); eauto. }
  all: destruct (history_of s); [destruct (example_choice e)|]; eauto.
Qed.

(** X16.  A run in which nothing is clicked or submitted returns normally,
    sends nothing, keeps the history and [current_decision], and stores what
    the context box holds as [decision_context]. *)
Theorem quiet_run_only_updates_context (e : env) (s : session) :
  quiet (ui e) = true ->
  run_outcome e s = Returned tt /\
  run_session e s =
    Session (Some (history_of s)) (Some (context_of e s))
            (Some (default EmptyString (current_decision s))) /\
  posts (run_rendered e s) = [].
Proof.
  intros Hq. destruct (run_quiet e s Hq) as (shown & Hrun & Hposts).
  unfold run_outcome, run_session, run_rendered. by rewrite Hrun.
Qed.

(** X16, at an edit of the context after a conversation. *)
Lemma quiet_run_only_updates_context_witness :
  run_session (env_of unavailable_response (context_edit "a new job"))
    (run_session first_submit new_session) =
  Session (Some [user_message "Should I move?";
                 assistant_message (JStr "What matters most to you?")])
          (Some "a new job") (Some EmptyString).
Proof.
  exact (proj1 (proj2
    (quiet_run_only_updates_context
       (env_of unavailable_response (context_edit "a new job"))
       (run_session first_submit new_session) eq_refl))).
Defined.

(** X17.  A run without any user action that follows any run (as the rerun
    after [st.rerun] is) leaves the session state as that run left it, sends
    nothing and returns normally. *)
Theorem rerun_keeps_session (e e' : env) (s : session) :
  ui e' = no_action ->
  run_session e' (run_session e s) = run_session e s /\
  run_outcome e' (run_session e s) = Returned tt /\
  posts (run_rendered e' (run_session e s)) = [].
Proof.
  intros Hui.
  assert (Hq : quiet (ui e') = true) by (by rewrite Hui).
  destruct (run_quiet e' (run_session e s) Hq) as (shown & Hrun & Hposts).
  unfold run_outcome, run_rendered. unfold run_session at 1. rewrite Hrun.
  cbn [fst snd session_state rendered]. split; [|done].
  destruct (run_session_shape e s) as (h & cd & ->).
  unfold context_of, history_of. by rewrite Hui.
Qed.

(** X17, at the rerun after an example click. *)
Lemma rerun_keeps_session_witness :
  run_session (env_of unavailable_response no_action)
    (run_session (env_of unavailable_response moving_click) new_session) =
  run_session (env_of unavailable_response moving_click) new_session.
Proof.
  exact (proj1 (rerun_keeps_session
                  (env_of unavailable_response moving_click)
                  (env_of unavailable_response no_action)
                  new_session eq_refl)).
Defined.

(** X18.  After every run [current_decision] is the context when Start New
    Decision was clicked and what it was before (the empty string if it was
    not set) otherwise; [decision_context] is the context and [messages] is
    set, whatever the outcome of the run. *)
Theorem current_decision_set_by_start_only (e : env) (s : session) :
  current_decision (run_session e s) =
    Some (if button_start_new_decision (ui e) then context_of e s
          else default EmptyString (current_decision s)) /\
  decision_context (run_session e s) = Some (context_of e s) /\
  is_Some (messages (run_session e s)).
Proof.
  unfold run_session. rewrite run_eq. unfold run_summary.
  destruct (button_start_new_decision (ui e)).
  { unfold start_summary. destruct (context_of e s); cbn; eauto. }
  destruct (button_clear_conversation (ui e)); [cbn; eauto|].
  destruct (chat_input (ui e)) as [[|a p]|].
  2: { unfold submit_summary, then_footer.
       destruct (call_outcome_of e); cbn; eauto. }
  all: destruct (history_of s); [destruct (example_choice e)|]; cbn; eauto.
Qed.

(** X19.  From an empty history, and with the Moving Decision button not
    clicked, a click on Education Choice appends the user message with the
    education scenario, a click on Career Change the one with the career
    scenario; the run reruns and sends nothing.  With no example clicked
    the history stays empty and the run returns. *)
Theorem other_example_clicks (e : env) (s : session) :
  button_start_new_decision (ui e) = false ->
  button_clear_conversation (ui e) = false ->
  has_prompt (ui e) = false ->
  button_moving_decision (ui e) = false ->
  history_of s = [] ->
  messages (run_session e s) =
    Some (if button_education_choice (ui e)
          then [{| role := "user";
                   content := JStr "I'm having trouble choosing between different college majors. How should I approach this decision?" |}]
          else if button_career_change (ui e)
          then [{| role := "user";
                   content := JStr "I'm considering changing careers but I'm not sure if it's the right move. Can you help me evaluate this?" |}]
          else []) /\
  run_outcome e s =
    (if button_education_choice (ui e) || button_career_change (ui e)
     then Raised RerunException else Returned tt) /\
  posts (run_rendered e s) = [].
Proof.
  intros Hs Hc Hp Hm Hh. split; [|split].
  3: { rewrite run_posts. unfold run_call, has_prompt in *. rewrite Hs, Hc.
       by destruct (chat_input (ui e)) as [[|a p]|]. }
  all: unfold run_session, run_outcome; rewrite run_eq;
    unfold run_summary, example_choice, has_prompt in *;
    rewrite Hs, Hc, Hm, Hh;
    destruct (chat_input (ui e)) as [[|a p]|]; try discriminate;
    by destruct (button_education_choice (ui e)),
                (button_career_change (ui e)).
Qed.

(** X19, at a click on Education Choice in a fresh session. *)
Lemma other_example_clicks_witness :
  messages (run_session (env_of unavailable_response education_click)
              new_session) =
  Some [{| role := "user";
           content := JStr "I'm having trouble choosing between different college majors. How should I approach this decision?" |}].
Proof.
  exact (proj1 (other_example_clicks
                  (env_of unavailable_response education_click) new_session
                  eq_refl eq_refl eq_refl eq_refl eq_refl)).
Defined.

Lemma append_inj (s a b : string) : s +:+ a = s +:+ b -> a = b.
Proof.
  induction s as [|x s IH]; [done|].
  change (String x (s +:+ a) = String x (s +:+ b) -> a = b).
  intros [= H]. by apply IH.
Qed.

Lemma create_system_prompt_inj (c1 c2 : string) :
  create_system_prompt c1 = create_system_prompt c2 -> c1 = c2.
Proof.
  unfold create_system_prompt.
  destruct c1 as [|a1 c1], c2 as [|a2 c2]; intros H.
  - done.
  - assert (H' : base_prompt +:+ EmptyString =
                 base_prompt +:+ LF +:+ LF +:+ "Current decision context: "
                 +:+ String a2 c2).
    { rewrite <- H. clear H. generalize base_prompt. intros b.
      induction b as [|x b IHb]; [done|].
      change (String x (b +:+ EmptyString) = String x b). by f_equal. }
    apply append_inj in H'. discriminate.
  - assert (H' : base_prompt +:+ LF +:+ LF +:+ "Current decision context: "
                 +:+ String a1 c1 = base_prompt +:+ EmptyString).
    { rewrite H. clear H. generalize base_prompt. intros b.
      induction b as [|x b IHb]; [done|].
      change (String x b = String x (b +:+ EmptyString)). by f_equal. }
    apply append_inj in H'. discriminate.
  - apply append_inj in H.
    by repeat (apply append_inj in H).
Qed.

(** X26.  Different contexts give different system prompts. *)
Theorem create_system_prompt_tells_contexts_apart (c1 c2 : string) :
  c1 <> c2 -> create_system_prompt c1 <> create_system_prompt c2.
Proof. intros Hne Heq. by apply Hne, create_system_prompt_inj. Qed.

(** X26, at a context and the empty one. *)
Lemma create_system_prompt_tells_contexts_apart_witness :
  create_system_prompt "a new job" <> create_system_prompt EmptyString.
Proof.
  apply create_system_prompt_tells_contexts_apart. discriminate.
Defined.

Lemma call_depends_on (e e' : env) (msgs : list message) :
  secrets e' = secrets e -> post e' = post e ->
  call_outcome_of e' = call_outcome_of e /\
  call_events e' msgs default_model = call_events e msgs default_model.
Proof.
  intros Hsec Hpost.
  unfold call_outcome_of, query_result, call_events, api_answer_of, headers_of.
  by rewrite Hsec, Hpost.
Qed.

(** X20.  In a run with Start New Decision clicked nothing else the user did
    in that run matters (Clear, a chat message, the example buttons), and the
    run never returns normally: it ends in the rerun or in an exception. *)
Theorem start_takes_precedence (e e' : env) (s : session) :
  button_start_new_decision (ui e) = true ->
  button_start_new_decision (ui e') = true ->
  secrets e' = secrets e ->
  post e' = post e ->
  text_area (ui e') = text_area (ui e) ->
  run e' s = run e s /\
  (exists x : exc, run_outcome e s = Raised x).
Proof.
  intros Hs Hs' Hsec Hpost Hta. unfold run_outcome.
  rewrite !run_eq. unfold run_summary. rewrite Hs, Hs'.
  assert (Hctx : context_of e' s = context_of e s).
  { unfold context_of. by rewrite Hta. }
  rewrite Hctx. unfold start_summary.
  destruct (context_of e s) as [|a c] eqn:Hc.
  - split; [done|]. by eexists.
  - destruct (call_depends_on e e' (system_message (String a c)
                :: opening (String a c)) Hsec Hpost) as [-> ->].
    split; [done|]. by eexists.
Qed.

(** X20, at a Start click with everything else set too. *)
Lemma start_takes_precedence_witness :
  run (env_of unavailable_response (start_and_more "a new job")) new_session =
  run (env_of unavailable_response (start_click "a new job")) new_session.
Proof.
  exact (proj1 (start_takes_precedence
                  (env_of unavailable_response (start_click "a new job"))
                  (env_of unavailable_response (start_and_more "a new job"))
                  new_session eq_refl eq_refl eq_refl eq_refl eq_refl)).
Defined.

(** X21.  Unless Start or Clear is clicked, the run renders, after the header
    and the tips, every stored message in order: a chat message of its role
    and then its content. *)
Theorem transcript_is_rendered_in_order (e : env) (s : session) :
  button_start_new_decision (ui e) = false ->
  button_clear_conversation (ui e) = false ->
  exists rest : list event,
    run_rendered e s =
    intro_events ++ tips_events ++
    flat_map (fun m => [st_chat_message_ev (role m);
                        st_markdown_ev (content m)]) (history_of s) ++
    rest.
Proof.
  intros Hs Hc. unfold run_rendered. rewrite run_eq. unfold run_summary.
  rewrite Hs, Hc. fold (display_events (history_of s)).
  destruct (chat_input (ui e)) as [[|a p]|].
  2: { unfold submit_summary, then_footer.
       destruct (call_outcome_of e); cbn [snd rendered after];
         eexists; rewrite <- !app_assoc; reflexivity. }
  all: destruct (history_of s) as [|m h];
    [ destruct (example_choice e) | ]; cbn [snd rendered];
    eexists; rewrite <- !app_assoc; reflexivity.
Qed.

(** X21, at the second of two submissions. *)
Lemma transcript_is_rendered_in_order_witness :
  exists rest : list event,
    run_rendered second_submit (run_session first_submit new_session) =
    intro_events ++ tips_events ++
    [st_chat_message_ev "user"; st_markdown_ev (JStr "Should I move?");
     st_chat_message_ev "assistant";
     st_markdown_ev (JStr "What matters most to you?")] ++
    rest.
Proof.
  exact (transcript_is_rendered_in_order second_submit
           (run_session first_submit new_session) eq_refl eq_refl).
Defined.

(** X15.  A run that calls the API while the secrets file has no
    [HF_TOKEN] ends in [st.stop]: nothing is sent, and the one error shown is
    the one about the missing token. *)
Theorem call_without_token_stops_the_run (e : env) (s : session)
    (entries : gmap string string) :
  run_call e s <> None ->
  secrets e = SecretsFile entries ->
  entries !! "HF_TOKEN" = None ->
  run_outcome e s = Raised StopException /\
  posts (run_rendered e s) = [] /\
  errors (run_rendered e s) =
    [st_error_ev "HF_TOKEN not found in secrets.toml. Please add it to your Streamlit secrets."].
Proof.
  intros Hcall Hstore Hentry.
  assert (Htok : secrets e !! "HF_TOKEN" = None).
  { rewrite Hstore. exact Hentry. }
  assert (Hout : call_outcome_of e = CallRaised StopException).
  { unfold call_outcome_of, query_result, api_answer_of.
    by rewrite Htok, Hstore. }
  assert (Hev : forall msgs : list message,
            call_events e msgs default_model = missing_token_events).
  { intros msgs. unfold call_events, api_answer_of. by rewrite Htok, Hstore. }
  split; [|split].
  2: { rewrite run_posts. destruct (run_call e s) as [msgs|]; [|done].
       by rewrite posts_call_events, Htok. }
  all: unfold run_outcome, run_rendered; rewrite run_eq;
    unfold run_summary, run_call in *;
    destruct (button_start_new_decision (ui e));
    [ unfold start_summary; destruct (context_of e s) as [|a c]; [done|];
      rewrite Hout, ?Hev; reflexivity
    | destruct (button_clear_conversation (ui e)); [done|];
      destruct (chat_input (ui e)) as [[|a p]|]; try done;
      unfold submit_summary, then_footer; rewrite Hout, ?Hev;
      cbn [fst snd rendered];
      rewrite ?errors_app, ?errors_display_events; reflexivity ].
Qed.

(** X15, at a submission with a secrets file that has no entries. *)
Lemma call_without_token_stops_the_run_witness :
  run_outcome (no_token_env (chat_submit "Should I move?")) new_session =
  Raised StopException.
Proof.
  apply (call_without_token_stops_the_run
           (no_token_env (chat_submit "Should I move?")) new_session ∅);
    [discriminate | reflexivity | reflexivity].
Defined.



Lemma keeps_turns_step (e : env) (s : session) :
  keeps_turns e = true ->
  strictly_alternating (history_of s) ->
  Nat.even (length (history_of s)) = true ->
  strictly_alternating (history_of (run_session e s)) /\
  Nat.even (length (history_of (run_session e s))) = true.
Proof.
  unfold keeps_turns. intros Hk Halt Heven.
  destruct (button_start_new_decision (ui e)) eqn:Hs.
  { unfold run_session. rewrite (run_start e s Hs). unfold start_summary.
    destruct (context_of e s) as [|a c].
    - split; [apply strictly_alternating_nil|done].
    - destruct (call_outcome_of e); unfold history_of;
        cbn [snd session_state messages from_option].
      + split; [|done].
        apply (strictly_alternating_snoc2 [] _ _ eq_refl),
          strictly_alternating_nil.
      + split; [apply strictly_alternating_nil|done].
      + split; [apply strictly_alternating_nil|done]. }
  destruct (button_clear_conversation (ui e)) eqn:Hc.
  { unfold run_session. rewrite (run_clear e s Hs Hc).
    split; [apply strictly_alternating_nil|done]. }
  cbn [orb] in Hk. destruct (has_prompt (ui e)) eqn:Hp.
  - assert (Hsub : is_submit (ui e) && api_succeeds e = true).
    { unfold is_submit, has_prompt in *. by rewrite Hs, Hc, Hp, Hk. }
    destruct (submit_success e s Hsub) as (p & c & _ & _ & Hrun).
    assert (Hnew : history_of (run_session e s) =
                   history_of s ++ [user_message p; assistant_message c]).
    { unfold history_of at 1. by rewrite Hrun. }
    rewrite Hnew. split.
    + by apply strictly_alternating_snoc2.
    + rewrite length_app, Nat.even_add, Heven. reflexivity.
  - destruct (run_quiet e s Hk) as (shown & Hrun & _).
    unfold run_session. rewrite Hrun. done.
Qed.

(** X24.  From a fresh session, runs that start a decision, clear the
    conversation, submit a message the API answers, or do nothing keep the
    history alternating, user first, and of even length. *)
Theorem orderly_runs_alternate (es : list env) :
  Forall (fun e => keeps_turns e = true) es ->
  strictly_alternating (history_of (runs es new_session)) /\
  Nat.even (length (history_of (runs es new_session))) = true.
Proof.
  induction es as [|e es IH] using rev_ind; intros Hall.
  - split; [apply strictly_alternating_nil|done].
  - apply Forall_app in Hall as [Hes He]. apply Forall_cons in He as [He _].
    destruct (IH Hes) as [Halt Heven]. rewrite runs_snoc.
    by apply keeps_turns_step.
Qed.

(** X24, at a submission, a Start click, a submission and a rerun. *)
Lemma orderly_runs_alternate_witness :
  strictly_alternating
    (history_of
       (runs [first_submit;
              env_of (ok_response (reply_body (JStr "What draws you to it?")))
                     (start_click "a new job");
              second_submit;
              env_of unavailable_response no_action]
             new_session)).
Proof.
  apply orderly_runs_alternate. repeat constructor.
Defined.

(** X25.  After a click on Moving Decision the example prompt is in the history
    unanswered; a submission that succeeds then leaves two user messages in
    a row, so the history no longer alternates. *)
Theorem example_then_submit_repeats_user (e1 e2 : env) (s : session) :
  history_of s = [] ->
  button_start_new_decision (ui e1) = false ->
  button_clear_conversation (ui e1) = false ->
  has_prompt (ui e1) = false ->
  button_moving_decision (ui e1) = true ->
  is_submit (ui e2) && api_succeeds e2 = true ->
  (exists (p : string) (c : json),
     chat_input (ui e2) = Some p /\ api_reply e2 = Some c /\
     history_of (run_session e2 (run_session e1 s)) =
       [user_message moving_example; user_message p; assistant_message c]) /\
  ~ strictly_alternating (history_of (run_session e2 (run_session e1 s))).
Proof.
  intros Hh Hs Hc Hp Hm Hsub.
  assert (H1 : history_of (run_session e1 s) = [user_message moving_example]).
  { unfold run_session. rewrite run_eq.
    unfold run_summary, example_choice, has_prompt in *.
    rewrite Hs, Hc, Hm, Hh.
    by destruct (chat_input (ui e1)) as [[|a p]|]. }
  destruct (submit_success e2 (run_session e1 s) Hsub)
    as (p & c & Hprompt & Hreply & Hrun).
  assert (H2 : history_of (run_session e2 (run_session e1 s)) =
               [user_message moving_example; user_message p;
                assistant_message c]).
  { unfold history_of at 1. rewrite Hrun, H1. reflexivity. }
  split; [by exists p, c|].
  rewrite H2. intros Halt. specialize (Halt 1%nat (user_message p) eq_refl).
  discriminate.
Qed.

(** X25, at an example click followed by a submission. *)
Lemma example_then_submit_repeats_user_witness :
  ~ strictly_alternating
      (history_of
         (run_session first_submit
            (run_session (env_of unavailable_response moving_click)
               new_session))).
Proof.
  exact (proj2 (example_then_submit_repeats_user
                  (env_of unavailable_response moving_click) first_submit
                  new_session eq_refl eq_refl eq_refl eq_refl eq_refl
                  eq_refl)).
Defined.

(** X4.  An exception of [requests.post] that is neither a
    [RequestException] nor a [JSONDecodeError] leaves [query_ai] as it is:
    no error is shown for it and the session state is untouched. *)
Theorem query_ai_lets_other_exceptions_through (e : env)
    (msgs : list message) (model : string) (w : world) (tok : string)
    (x : exc) :
  secrets e !! "HF_TOKEN" = Some tok ->
  post e = PostRaises x ->
  isinstance_RequestException x = false ->
  isinstance_JSONDecodeError x = false ->
  (query_ai e msgs model w).1 = Raised x /\
  errors (rendered (query_ai e msgs model w).2) = errors (rendered w) /\
  session_state (query_ai e msgs model w).2 = session_state w.
Proof.
  intros Htok Hpost H1 H2. rewrite query_ai_eq.
  unfold query_result, call_events, api_answer_of, classify.
  rewrite Htok, Hpost, H1, H2. cbn [fst snd after rendered session_state].
  split; [done|]. split; [|done].
  rewrite errors_app. cbn. by rewrite app_nil_r.
Qed.

(** X4, at an exception of another class. *)
Lemma query_ai_lets_other_exceptions_through_witness :
  (query_ai (broken_env no_action) [user_message "Should I move?"]
     default_model (World new_session [])).1 =
  Raised (OtherException "maximum recursion depth exceeded").
Proof.
  exact (proj1 (query_ai_lets_other_exceptions_through (broken_env no_action)
                  [user_message "Should I move?"] default_model
                  (World new_session []) "hf_example"
                  (OtherException "maximum recursion depth exceeded")
                  eq_refl eq_refl eq_refl eq_refl)).
Defined.

(** X13.  When the API answers Start New Decision with a 4xx or 5xx status,
    the only error shown is the one of [query_ai]: the handler has no error
    of its own, leaves the history empty and reruns. *)
Theorem failed_start_shows_only_the_client_error (e : env) (s : session)
    (tok : string) (r : response) :
  button_start_new_decision (ui e) = true ->
  context_of e s <> EmptyString ->
  secrets e !! "HF_TOKEN" = Some tok ->
  post e = PostReturns r ->
  http_failure r = true ->
  run_outcome e s = Raised RerunException /\
  errors (run_rendered e s) =
    [st_error_ev ("API request failed: " +:+ http_error_msg r)] /\
  messages (run_session e s) = Some [].
Proof.
  intros Hs Hne Htok Hpost Hfail.
  unfold run_outcome, run_rendered, run_session. rewrite (run_start e s Hs).
  unfold start_summary. destruct (context_of e s) as [|a c]; [done|].
  unfold call_outcome_of, query_result, call_events, api_answer_of, classify.
  rewrite Htok, Hpost, Hfail. done.
Qed.

(** X13, at a Start click answered by a 503. *)
Lemma failed_start_shows_only_the_client_error_witness :
  errors (run_rendered (env_of unavailable_response (start_click "a new job"))
            new_session) =
  [st_error_ev "API request failed: 503 Server Error: Service Unavailable"].
Proof.
  exact (proj1 (proj2
    (failed_start_shows_only_the_client_error
       (env_of unavailable_response (start_click "a new job")) new_session
       "hf_example" unavailable_response eq_refl ltac:(discriminate)
       eq_refl eq_refl eq_refl))).
Defined.

(** X14.  When the body of the response fails the guard of line 115, Start New
    Decision shows no error at all: the history stays empty and the script
    reruns. *)
Theorem start_without_choices_is_silent (e : env) (s : session)
    (tok : string) (r : response) (body : json) :
  button_start_new_decision (ui e) = true ->
  context_of e s <> EmptyString ->
  secrets e !! "HF_TOKEN" = Some tok ->
  post e = PostReturns r ->
  http_failure r = false ->
  json_body r = inr body ->
  has_choices body = Returned false ->
  run_outcome e s = Raised RerunException /\
  errors (run_rendered e s) = [] /\
  messages (run_session e s) = Some [].
Proof.
  intros Hs Hne Htok Hpost Hfail Hbody Hguard.
  unfold run_outcome, run_rendered, run_session. rewrite (run_start e s Hs).
  unfold start_summary. destruct (context_of e s) as [|a c]; [done|].
  unfold call_outcome_of, query_result, call_events.
  rewrite (answered e tok r body Htok Hpost Hfail Hbody).
  unfold handler_outcome, reply_outcome_of. rewrite Hguard. done.
Qed.

(** X14, at a body that only carries an error text. *)
Lemma start_without_choices_is_silent_witness :
  errors (run_rendered (env_of (ok_response no_choices_body)
                          (start_click "a new job")) new_session) = [].
Proof.
  exact (proj1 (proj2
    (start_without_choices_is_silent
       (env_of (ok_response no_choices_body) (start_click "a new job"))
       new_session "hf_example" (ok_response no_choices_body)
       no_choices_body eq_refl ltac:(discriminate) eq_refl eq_refl eq_refl
       eq_refl eq_refl))).
Defined.

(** X22.  A run returns normally only when neither Start nor Clear was
    clicked, and the last thing it renders is then the footer. *)
Theorem returned_run_ends_with_footer (e : env) (s : session) :
  run_outcome e s = Returned tt ->
  button_start_new_decision (ui e) = false /\
  button_clear_conversation (ui e) = false /\
  last (run_rendered e s) = Some (st_markdown_ev (JStr footer)).
Proof.
  unfold run_outcome, run_rendered. rewrite run_eq. unfold run_summary.
  destruct (button_start_new_decision (ui e)).
  { unfold start_summary. by destruct (context_of e s). }
  destruct (button_clear_conversation (ui e)); [done|].
  assert (Hlast : forall l : list event,
            last (l ++ footer_events) = Some (st_markdown_ev (JStr footer))).
  { intros l.
    change footer_events
      with ([st_markdown_ev (JStr "---")] ++ [st_markdown_ev (JStr footer)]).
    rewrite app_assoc. apply last_snoc. }
  destruct (chat_input (ui e)) as [[|a p]|].
  2: { unfold submit_summary, then_footer.
       destruct (call_outcome_of e); cbn [fst snd rendered after];
         intros H; try discriminate; by rewrite Hlast. }
  all: destruct (history_of s) as [|m h];
    [ destruct (example_choice e); cbn [fst snd rendered]; intros H;
      try discriminate; by rewrite !app_assoc, Hlast
    | cbn [fst snd rendered]; intros _; by rewrite Hlast ].
Qed.

(** X22, at a first submission. *)
Lemma returned_run_ends_with_footer_witness :
  last (run_rendered first_submit new_session) =
  Some (st_markdown_ev (JStr footer)).
Proof.
  exact (proj2 (proj2 (returned_run_ends_with_footer first_submit new_session
                         eq_refl))).
Defined.

(** X23.  A run in which nothing is clicked or submitted renders the header,
    the tips, the transcript, the onboarding block exactly when the history
    is empty, and the footer. *)
Theorem onboarding_shown_while_history_empty (e : env) (s : session) :
  quiet (ui e) = true ->
  run_rendered e s =
  intro_events ++ tips_events ++
  flat_map (fun m => [st_chat_message_ev (role m);
                      st_markdown_ev (content m)]) (history_of s) ++
  (match history_of s with
   | [] => get_started_events
   | _ :: _ => []
   end) ++
  footer_events.
Proof.
  intros Hq. apply quiet_fields in Hq as (Hs & Hc & Hp & Hm & He & Hk).
  unfold run_rendered. rewrite run_eq.
  unfold run_summary, example_choice, has_prompt in *.
  rewrite Hs, Hc, Hm, He, Hk. fold (display_events (history_of s)).
  destruct (chat_input (ui e)) as [[|a p]|]; [|discriminate|].
  all: destruct (history_of s) as [|m h]; cbn [snd rendered];
    by rewrite <- ?app_assoc.
Qed.

(** X23, at the first run of a fresh session. *)
Lemma onboarding_shown_while_history_empty_witness :
  run_rendered (env_of unavailable_response no_action) new_session =
  intro_events ++ tips_events ++ get_started_events ++ footer_events.
Proof.
  exact (onboarding_shown_while_history_empty
           (env_of unavailable_response no_action) new_session eq_refl).
Defined.
